(** * jpcs-raffle: the admin/client raffle protocol, embedded and verified

    Sources embedded here:
    - [lib/supabase.ts]    : [State], [PublicData], [pickRandomElement]
    - [app/admin/page.tsx] : [AdminPage] and its three transition handlers
    - [app/page.tsx]       : [Home], the spectator view

    JavaScript numbers are IEEE 754 binary64 values; they are modelled with
    the kernel's own specification of binary floating point ([SpecFloat]),
    so [Math.random() * arr.length] is the correctly rounded product and
    not an idealised real one. *)

From Stdlib Require Import ZArith List String Ascii Bool Lia.
From Stdlib Require Import DecimalString DecimalZ.
From Stdlib Require Import Floats.SpecFloat.
Import ListNotations.

Local Open Scope string_scope.
Local Open Scope list_scope.
Local Open Scope Z_scope.

(* ================================================================== *)
(** * The JavaScript Number type *)
(* ================================================================== *)

Module Number.

Definition prec : Z := 53.
Definition emax : Z := 1024.

(** A JS Number. *)
Definition double : Type := spec_float.

Definition valid (x : double) : bool := valid_binary prec emax x.

(** [a * b] on Numbers: round-to-nearest, ties-to-even. *)
Definition mul (x y : double) : double := SFmul prec emax x y.

(** The Number holding a non-negative integer such as [arr.length]. *)
Definition of_nat (n : nat) : double :=
  binary_normalize prec emax (Z.of_nat n) 0 false.

Definition one : double := S754_finite false 4503599627370496 (-52).

(** [Math.floor], read back as an integer; [None] for NaN and the
    infinities, which [Math.floor] leaves as they are. *)
Definition floor (x : double) : option Z :=
  match x with
  | S754_zero _ => Some 0
  | S754_finite s m e => Some (Z.shiftl (cond_Zopp s (Zpos m)) e)
  | S754_infinity _ | S754_nan => None
  end.

(** What [Math.random()] may return: a Number of positive sign, at least
    [+0] and strictly below [1]. *)
Definition is_random (r : double) : bool :=
  match r with
  | S754_zero false => true
  | S754_finite false _ _ => valid r && SFltb r one
  | _ => false
  end.

(** What [k] right shifts of the integer [P] leave in a [shr_record]: the
    quotient, and a round bit that is set only when the dropped part
    reaches half a unit. *)
Definition shr_inv (P k : Z) (x : shr_record) : Prop :=
  0 <= k /\ shr_m x = P / 2 ^ k /\
  (shr_r x = true -> 2 ^ k <= 2 * (P mod 2 ^ k)).

End Number.

(* ================================================================== *)
(** * lib/supabase.ts *)
(* ================================================================== *)

Module Supabase.

Inductive State : Type := WAITING | DRAWING | DRAWN | ERROR.

Definition State_eqb (a b : State) : bool :=
  match a, b with
  | WAITING, WAITING | DRAWING, DRAWING | DRAWN, DRAWN | ERROR, ERROR => true
  | _, _ => false
  end.

(** [winner?: string | null]: [None] stands for [null] and [undefined]. *)
Record PublicData : Type := {
  id : Z;
  created_at : string;
  state : State;
  winner : option string
}.

Definition RAFFLE_ID : Z := 1.
Definition RAFFLE_ROOM_CHANNEL : string := "raffle-room-1".

Record PresenceStateForUser : Type := {
  user : string;
  online_at : string;
  presence_ref : string
}.

(** What reaches a parameter typed [T[]] at run time: an array, or the
    [null]/[undefined] that the test [!arr] lets through. *)
Inductive js_array (T : Type) : Type :=
| js_nullish
| js_elems (l : list T).
Arguments js_nullish {T}.
Arguments js_elems {T} l.

(** The largest length an array can have. *)
Definition MAX_ARRAY_LENGTH : Z := 4294967295.

Section PickRandomElement.
Context {T : Type}.

(** [Math.floor(rnd * arr.length)], [rnd] being the value [Math.random()]
    returned. *)
Definition randomIndex (rnd : Number.double) (l : list T) : option Z :=
  Number.floor (Number.mul rnd (Number.of_nat (List.length l))).

(** [arr[i]]: [undefined] outside the array. *)
Definition element_at (l : list T) (i : option Z) : option T :=
  match i with
  | Some z => if z <? 0 then None else nth_error l (Z.to_nat z)
  | None => None
  end.

(** The index [pickRandomElement] reads, when it reads one. *)
Definition accessedIndex (rnd : Number.double) (arr : js_array T)
  : option (option Z) :=
  match arr with
  | js_nullish => None
  | js_elems l =>
      if Nat.eqb (List.length l) 0 then None else Some (randomIndex rnd l)
  end.

Definition pickRandomElement (rnd : Number.double) (arr : js_array T)
  : option T :=
  match arr with
  | js_nullish => None
  | js_elems l =>
      if Nat.eqb (List.length l) 0 then None
      else
        let randomIndex := randomIndex rnd l in
        element_at l randomIndex
  end.
End PickRandomElement.

(** Truthiness of a [string | undefined]: [!w] holds for [undefined] and
    for the empty string. *)
Definition falsy (w : option string) : bool :=
  match w with
  | None => true
  | Some s => String.eqb s EmptyString
  end.

(** [err?.message || 'Unknown error'] *)
Definition message_or_unknown (message : option string) : string :=
  match message with
  | Some m => if String.eqb m EmptyString then "Unknown error" else m
  | None => "Unknown error"
  end.

End Supabase.

(* ================================================================== *)
(** * app/admin/page.tsx *)
(* ================================================================== *)

Module Admin.
Import Supabase.

(** [RealtimePresenceState]: presence entries by key, in the order
    [Object.values] enumerates them. *)
Definition RealtimePresenceState : Type :=
  list (string * list PresenceStateForUser).

(** The state of one [AdminPage] instance: its four [useState] cells and
    [channelRef]. *)
Record AdminPage : Type := {
  raffleData : option PublicData;
  connectedUsers : RealtimePresenceState;
  isLoading : bool;
  error : option string;
  channelRef : option string
}.

Definition setRaffleData (d : option PublicData) (c : AdminPage) : AdminPage :=
  {| raffleData := d; connectedUsers := connectedUsers c;
     isLoading := isLoading c; error := error c; channelRef := channelRef c |}.

Definition setConnectedUsers (ps : RealtimePresenceState) (c : AdminPage)
  : AdminPage :=
  {| raffleData := raffleData c; connectedUsers := ps;
     isLoading := isLoading c; error := error c; channelRef := channelRef c |}.

Definition setIsLoading (b : bool) (c : AdminPage) : AdminPage :=
  {| raffleData := raffleData c; connectedUsers := connectedUsers c;
     isLoading := b; error := error c; channelRef := channelRef c |}.

Definition setError (e : option string) (c : AdminPage) : AdminPage :=
  {| raffleData := raffleData c; connectedUsers := connectedUsers c;
     isLoading := isLoading c; error := e; channelRef := channelRef c |}.

Definition setChannelRef (ch : option string) (c : AdminPage) : AdminPage :=
  {| raffleData := raffleData c; connectedUsers := connectedUsers c;
     isLoading := isLoading c; error := error c; channelRef := ch |}.

(** The component as first rendered. *)
Definition initialPage : AdminPage :=
  {| raffleData := None; connectedUsers := []; isLoading := false;
     error := None; channelRef := None |}.

(** [raffleData?.state ?? State.WAITING] *)
Definition currentState (c : AdminPage) : State :=
  match raffleData c with
  | Some d => state d
  | None => WAITING
  end.

(** [Object.values(connectedUsers).flat().map(e => e.user)] *)
Definition userList (c : AdminPage) : list string :=
  List.map user (List.concat (List.map snd (connectedUsers c))).

(** The argument of [.update(...)]: a partial record of [state] and
    [winner]. *)
Record Patch : Type := {
  patch_state : State;
  patch_winner : option string
}.

(** [winner != null] exactly when [state = DRAWN]. *)
Definition patch_invariant (p : Patch) : Prop :=
  patch_winner p <> None <-> patch_state p = DRAWN.

Definition record_invariant (d : PublicData) : Prop :=
  winner d <> None <-> state d = DRAWN.

(** The row after [.update(p).eq("id", RAFFLE_ID)]: both columns of the
    patch replace the stored ones. *)
Definition updated (p : Patch) (d : PublicData) : PublicData :=
  {| id := id d; created_at := created_at d;
     state := patch_state p; winner := patch_winner p |}.

(** The local placeholder shown when the record cannot be read. *)
Definition errorPlaceholder (now : string) : PublicData :=
  {| id := RAFFLE_ID; created_at := now; state := ERROR; winner := None |}.

(** ** The transition handlers, up to their [await]

    Each returns the component state it leaves and the update it sent to
    the store, if it sent one. *)

Definition handleStartDraw (c : AdminPage) : AdminPage * option Patch :=
  if isLoading c || negb (State_eqb (currentState c) WAITING) then (c, None)
  else
    let c := setIsLoading true c in
    let c := setError None c in
    (c, Some {| patch_state := DRAWING; patch_winner := None |}).

Definition handlePickWinner (rnd : Number.double) (c : AdminPage)
  : AdminPage * option Patch :=
  let userList := userList c in
  if isLoading c || negb (State_eqb (currentState c) DRAWING)
     || Nat.eqb (List.length userList) 0
  then (c, None)
  else
    let c := setIsLoading true c in
    let c := setError None c in
    let winnerId := pickRandomElement rnd (js_elems userList) in
    if falsy winnerId then
      let c := setError (Some "No users connected to pick a winner from.") c in
      let c := setIsLoading false c in
      (c, None)
    else
      (c, Some {| patch_state := DRAWN; patch_winner := winnerId |}).

Definition handleResetRaffle (c : AdminPage) : AdminPage * option Patch :=
  if isLoading c then (c, None)
  else
    let c := setIsLoading true c in
    let c := setError None c in
    (c, Some {| patch_state := WAITING; patch_winner := None |}).

Inductive Handler : Type := StartDraw | PickWinner | ResetRaffle.

Definition handle (h : Handler) (rnd : Number.double) (c : AdminPage)
  : AdminPage * option Patch :=
  match h with
  | StartDraw => handleStartDraw c
  | PickWinner => handlePickWinner rnd c
  | ResetRaffle => handleResetRaffle c
  end.

(** ** The handlers after their [await]: [catch] and [finally] *)

Definition failurePrefix (h : Handler) : string :=
  match h with
  | StartDraw => "Failed to start draw: "
  | PickWinner => "Failed to pick winner: "
  | ResetRaffle => "Failed to reset raffle: "
  end.

(** [updateError] is [None] when the store accepted the update, and
    carries the error's [message] otherwise. *)
Definition resume (h : Handler) (updateError : option (option string))
    (c : AdminPage) : AdminPage :=
  let c :=
    match updateError with
    | Some err =>
        setError (Some (String.append (failurePrefix h) (message_or_unknown err))) c
    | None => c
    end in
  setIsLoading false c.

(** ** [setupAdminSubscription] *)

(** What the initial [select ... single()] resolves to. *)
Inductive FetchResult : Type :=
| FetchData (d : PublicData)
| FetchError (message : option string)
| FetchNoData.

Definition setup_start (c : AdminPage) : AdminPage :=
  let c := setError None c in
  setIsLoading true c.

(** The [try]/[catch] around the fetch.  The boolean tells whether setup
    goes on to create the channel; in both cases [finally] has scheduled
    [setTimeout(() => setIsLoading(false), 100)]. *)
Definition setup_fetched (now : string) (r : FetchResult) (c : AdminPage)
  : AdminPage * bool :=
  let failed (message : option string) :=
    let c := setError (Some (String.append "Failed to fetch initial state: "
                                           (message_or_unknown message))) c in
    let c := setRaffleData (Some (errorPlaceholder now)) c in
    let c := setIsLoading false c in
    (c, false) in
  match r with
  | FetchData d => (setRaffleData (Some d) c, true)
  | FetchError message => failed message
  | FetchNoData => failed (Some "No raffle data found for ID 1.")
  end.

Inductive EventType : Type := INSERT | UPDATE | DELETE.

(** The [postgres_changes] listener. *)
Definition on_postgres_changes (now : string) (eventType : EventType)
    (new : PublicData) (c : AdminPage) : AdminPage :=
  let c := setError None c in
  match eventType with
  | UPDATE | INSERT => setRaffleData (Some new) c
  | DELETE =>
      let c := setError (Some "Raffle data (ID: 1) was deleted.") c in
      setRaffleData (Some (errorPlaceholder now)) c
  end.

(** The presence [sync] listener; [presenceState] is what
    [adminChannel.presenceState()] returns at that moment. *)
Definition on_presence_sync (presenceState : RealtimePresenceState)
    (c : AdminPage) : AdminPage :=
  setConnectedUsers presenceState c.

(** The callback of [adminChannel.subscribe]. *)
Definition on_status (status : string) (c : AdminPage) : AdminPage :=
  if String.prefix "CHANNEL_ERROR" status then
    setError (Some (String.append "Channel Error: "
               (String.append status ". Realtime updates might be interrupted."))) c
  else if String.eqb status "SUBSCRIBED" then setError None c
  else c.

(** ** One admin session and what happens to it

    The page runs on a single-threaded event loop.  A session records the
    component state together with what is pending outside it: the initial
    fetch, the [setTimeout] callbacks, the updates awaiting their
    response, the updates the store has been sent (latest first) and the
    presence state the bus currently holds.  Every callback runs to its
    next [await] without interruption and sees the component state the
    callbacks before it have left. *)

Inductive SetupPhase : Type := NotMounted | AwaitingFetch | SetupReturned.

Record Session : Type := {
  page : AdminPage;
  setup : SetupPhase;
  timers : nat;
  inflight : list Handler;
  written : list Patch;
  presence : RealtimePresenceState
}.

Definition initialSession : Session :=
  {| page := initialPage; setup := NotMounted; timers := 0%nat;
     inflight := []; written := []; presence := [] |}.

Definition with_page (c : AdminPage) (w : Session) : Session :=
  {| page := c; setup := setup w; timers := timers w;
     inflight := inflight w; written := written w; presence := presence w |}.

Definition with_presence (ps : RealtimePresenceState) (w : Session) : Session :=
  {| page := page w; setup := setup w; timers := timers w;
     inflight := inflight w; written := written w; presence := ps |}.

Fixpoint remove_at {A : Type} (k : nat) (l : list A) : list A :=
  match l, k with
  | [], _ => []
  | _ :: l', O => l'
  | x :: l', S k' => x :: remove_at k' l'
  end.

Inductive Event : Type :=
| Mounted
    (* the effect runs [setupAdminSubscription] *)
| Fetched (now : string) (r : FetchResult)
    (* the initial fetch settles *)
| TimerFired
    (* a pending [setTimeout] callback runs *)
| Clicked (h : Handler) (rnd : Number.double)
    (* a handler is invoked; [rnd] is what [Math.random()] would return *)
| Responded (k : nat) (updateError : option (option string))
    (* the store answers the [k]-th pending update *)
| Changed (now : string) (eventType : EventType) (new : PublicData)
    (* the bus delivers a change of the raffle row *)
| PresenceChanged (ps : RealtimePresenceState)
    (* clients join or leave: the bus's presence state is now [ps] *)
| PresenceSynced
    (* the bus delivers a presence [sync] *)
| StatusChanged (status : string).
    (* the bus reports a channel status *)

(** An event that cannot occur in the session's state (a timer that was
    never set, a listener that was never registered) leaves it as it is. *)
Definition step (e : Event) (w : Session) : Session :=
  match e with
  | Mounted =>
      match setup w with
      | NotMounted =>
          {| page := setup_start (page w); setup := AwaitingFetch;
             timers := timers w; inflight := inflight w;
             written := written w; presence := presence w |}
      | _ => w
      end
  | Fetched now r =>
      match setup w with
      | AwaitingFetch =>
          let '(c, goes_on) := setup_fetched now r (page w) in
          let c :=
            if goes_on then setChannelRef (Some RAFFLE_ROOM_CHANNEL) c
            else c in
          {| page := c; setup := SetupReturned; timers := S (timers w);
             inflight := inflight w; written := written w;
             presence := presence w |}
      | _ => w
      end
  | TimerFired =>
      match timers w with
      | S n =>
          {| page := setIsLoading false (page w); setup := setup w;
             timers := n; inflight := inflight w; written := written w;
             presence := presence w |}
      | O => w
      end
  | Clicked h rnd =>
      match handle h rnd (page w) with
      | (c, Some p) =>
          {| page := c; setup := setup w; timers := timers w;
             inflight := inflight w ++ [h]; written := p :: written w;
             presence := presence w |}
      | (c, None) => with_page c w
      end
  | Responded k updateError =>
      match nth_error (inflight w) k with
      | Some h =>
          {| page := resume h updateError (page w); setup := setup w;
             timers := timers w; inflight := remove_at k (inflight w);
             written := written w; presence := presence w |}
      | None => w
      end
  | Changed now eventType new =>
      match channelRef (page w) with
      | Some _ => with_page (on_postgres_changes now eventType new (page w)) w
      | None => w
      end
  | PresenceChanged ps => with_presence ps w
  | PresenceSynced =>
      match channelRef (page w) with
      | Some _ => with_page (on_presence_sync (presence w) (page w)) w
      | None => w
      end
  | StatusChanged status =>
      match channelRef (page w) with
      | Some _ => with_page (on_status status (page w)) w
      | None => w
      end
  end.

Definition run (es : list Event) (w : Session) : Session :=
  fold_left (fun w e => step e w) es w.

(** At most one update awaits its response, and [isLoading] is set while
    one does. *)
Definition single_flight (w : Session) : Prop :=
  match inflight w with
  | [] => True
  | [_] => isLoading (page w) = true
  | _ :: _ :: _ => False
  end.

(** The events that come from the realtime bus. *)
Definition from_bus (e : Event) : bool :=
  match e with
  | Changed _ _ _ | PresenceChanged _ | PresenceSynced | StatusChanged _ => true
  | _ => false
  end.

End Admin.

(* ================================================================== *)
(** * app/page.tsx *)
(* ================================================================== *)

Module Client.
Import Supabase.

(** The two [useState] cells of [Home] that its view is drawn from. *)
Record Home : Type := {
  state : State;
  winner : option string
}.

Inductive SetterCall : Type :=
| setState (s : State)
| setWinner (w : option string).

Definition apply_call (v : Home) (call : SetterCall) : Home :=
  match call with
  | setState s => {| state := s; winner := winner v |}
  | setWinner w => {| state := state v; winner := w |}
  end.

(** The [postgres_changes] listener: the setter calls it makes, in order. *)
Definition on_postgres_changes (new : PublicData) : list SetterCall :=
  let newState := Supabase.state new in
  let newWinner := Supabase.winner new in
  [setState newState; setWinner newWinner].

(** The views React renders for one callback: the setter calls made while
    the callback runs are queued, applied in order when it returns, and
    rendered once. *)
Definition rendered (v : Home) (calls : list SetterCall) : list Home :=
  match calls with
  | [] => []
  | _ :: _ => [fold_left apply_call calls v]
  end.

End Client.

(* ================================================================== *)
(** * Sample data *)
(* ================================================================== *)

Module Samples.
Import Supabase Admin.

Definition now : string := "2025-04-24T03:41:21.000Z".

Definition recordIn (s : State) (w : option string) : PublicData :=
  {| id := RAFFLE_ID; created_at := now; state := s; winner := w |}.

(** One client tracking itself under the identifier [u]. *)
Definition present (u : string) : string * list PresenceStateForUser :=
  (u, [{| user := u; online_at := now; presence_ref := "ref" |}]).

(** The largest value [Math.random()] can return, [1 - 2^-53]. *)
Definition almostOne : Number.double :=
  S754_finite false 9007199254740991 (-53).

(** Setup succeeds on a record in state [s]; then the clients [users]
    are reported present. *)
Definition attended (s : State) (users : list string) : list Event :=
  [Mounted; Fetched now (FetchData (recordIn s None)); TimerFired;
   PresenceChanged (List.map present users); PresenceSynced].

(** The page shows [DRAWING] and three clients are present. *)
Definition drawingSession : Session :=
  run (attended DRAWING ["a"; "b"; "c"]) initialSession.

(** The same, with a reset sent and not yet answered. *)
Definition resettingSession : Session :=
  run (attended DRAWING ["a"] ++ [Clicked ResetRaffle almostOne]) initialSession.

(** The page shows [DRAWING]; the one client present tracks the empty
    string as its identifier. *)
Definition unnamedSession : Session :=
  run (attended DRAWING [EmptyString]) initialSession.

(** The initial fetch fails. *)
Definition failedSetup : list Event :=
  [Mounted; Fetched now (FetchError (Some "Failed to fetch"))].

End Samples.

(* ================================================================== *)
(** * lib/supabase.ts, the helpers of the spectator page *)
(* ================================================================== *)

Module Utilities.
Import Supabase.

(** How a template literal prints an integer Number. *)
Definition decimal (z : Z) : string := NilZero.string_of_int (Z.to_int z).

(** [`user_${Date.now()}_${Math.random().toString(36).substring(2, 9)}`]:
    [dateNow] is what [Date.now()] returns and [base36] what
    [Math.random().toString(36)] returns. *)
Definition generateUniqueUserId (dateNow : Z) (base36 : string) : string :=
  String.append "user_"
    (String.append (decimal dateNow)
       (String.append "_" (substring 2 7 base36))).

(** An identifier a client of this repository gives itself. *)
Definition generated (u : string) : Prop :=
  exists dateNow base36, u = generateUniqueUserId dateNow base36.

(** [Math.floor(Math.random() * n)] for a literal [n]. *)
Definition floorOfScaled (rnd : Number.double) (n : nat) : option Z :=
  Number.floor (Number.mul rnd (Number.of_nat n)).

(** [getRandomColor], the three values [Math.random()] returns being
    [r1], [r2] and [r3] in the order of the calls.  [None] stands for a
    component that is NaN or infinite. *)
Definition getRandomColor (r1 r2 r3 : Number.double) : option string :=
  match floorOfScaled r1 360, floorOfScaled r2 30, floorOfScaled r3 20 with
  | Some hue, Some s, Some l =>
      let saturation := s + 70 in
      let lightness := l + 50 in
      Some (String.append "hsl("
             (String.append (decimal hue)
               (String.append ", "
                 (String.append (decimal saturation)
                   (String.append "%, "
                     (String.append (decimal lightness) "%)"))))))
  | _, _, _ => None
  end.

End Utilities.

(* ================================================================== *)
(** * app/admin/page.tsx, what is rendered and the teardown *)
(* ================================================================== *)

Module AdminView.
Import Supabase Admin.

(** [!!error] *)
Definition truthy (e : option string) : bool := negb (falsy e).

(** The [disabled] attribute of the three buttons. *)
Definition startDisabled (c : AdminPage) : bool :=
  isLoading c || negb (State_eqb (currentState c) WAITING) || truthy (error c).

Definition pickDisabled (c : AdminPage) : bool :=
  isLoading c || negb (State_eqb (currentState c) DRAWING)
  || Nat.eqb (List.length (userList c)) 0 || truthy (error c).

Definition resetDisabled (c : AdminPage) : bool := isLoading c.

(** [raffleData?.winner] *)
Definition currentWinner (c : AdminPage) : option string :=
  match raffleData c with
  | Some d => winner d
  | None => None
  end.

(** The effect's cleanup: the page it leaves and the channel it hands to
    [supabase.removeChannel], if there is one. *)
Definition cleanup (c : AdminPage) : AdminPage * option string :=
  match channelRef c with
  | Some chan => (setChannelRef None c, Some chan)
  | None => (c, None)
  end.

(** The identifiers the bus reports present in [ps]. *)
Definition usersOf (ps : RealtimePresenceState) : list string :=
  List.map user (List.concat (List.map snd ps)).

(** The identifiers announced present by the events of a trace. *)
Fixpoint announced (es : list Event) : list string :=
  match es with
  | [] => []
  | PresenceChanged ps :: es' => usersOf ps ++ announced es'
  | _ :: es' => announced es'
  end.

(** The records the store hands to the page in a trace: fetched ones and
    those of the change events. *)
Fixpoint delivered (es : list Event) : list PublicData :=
  match es with
  | [] => []
  | Fetched _ (FetchData d) :: es' => d :: delivered es'
  | Changed _ _ new :: es' => new :: delivered es'
  | _ :: es' => delivered es'
  end.



End AdminView.

(* ================================================================== *)
(** * app/page.tsx, the spectator's tab *)
(* ================================================================== *)

(** The file holds two [Home] components.  [HomePage] embeds the first
    (lines 8-213), which paints [document.body] and returns from setup
    when the initial fetch fails; [SecondHome] below embeds the setup of
    the second (lines 220-409), which does not. *)

Module HomePage.
Import Supabase.

(** [PresencePayload], what a client tracks. *)
Record PresencePayload : Type := {
  user : string;
  online_at : string
}.

(** One tab showing [Home]: the component's state cells and refs, and
    what it holds outside itself: the interval timers it has scheduled
    and not cleared, the background of [document.body], and the payloads
    it has passed to [channel.track] (latest first). *)
Record Tab : Type := {
  view : Client.Home;
  isFlashing : bool;
  userId : string;
  flashIntervalRef : option nat;
  channelRef : option string;
  setup : Admin.SetupPhase;
  intervals : list nat;
  nextHandle : nat;
  bodyBackground : string;
  tracked : list PresencePayload
}.

Definition initialTab (userId : string) (background : string) : Tab :=
  {| view := {| Client.state := WAITING; Client.winner := None |};
     isFlashing := false; userId := userId;
     flashIntervalRef := None; channelRef := None;
     setup := Admin.NotMounted;
     intervals := []; nextHandle := 1%nat;
     bodyBackground := background; tracked := [] |}.

Definition setView (v : Client.Home) (t : Tab) : Tab :=
  {| view := v; isFlashing := isFlashing t; userId := userId t;
     flashIntervalRef := flashIntervalRef t; channelRef := channelRef t;
     setup := setup t; intervals := intervals t; nextHandle := nextHandle t;
     bodyBackground := bodyBackground t; tracked := tracked t |}.

Definition setIsFlashing (b : bool) (t : Tab) : Tab :=
  {| view := view t; isFlashing := b; userId := userId t;
     flashIntervalRef := flashIntervalRef t; channelRef := channelRef t;
     setup := setup t; intervals := intervals t; nextHandle := nextHandle t;
     bodyBackground := bodyBackground t; tracked := tracked t |}.

Definition setFlashIntervalRef (r : option nat) (t : Tab) : Tab :=
  {| view := view t; isFlashing := isFlashing t; userId := userId t;
     flashIntervalRef := r; channelRef := channelRef t;
     setup := setup t; intervals := intervals t; nextHandle := nextHandle t;
     bodyBackground := bodyBackground t; tracked := tracked t |}.

Definition setChannelRef (r : option string) (t : Tab) : Tab :=
  {| view := view t; isFlashing := isFlashing t; userId := userId t;
     flashIntervalRef := flashIntervalRef t; channelRef := r;
     setup := setup t; intervals := intervals t; nextHandle := nextHandle t;
     bodyBackground := bodyBackground t; tracked := tracked t |}.

Definition setSetup (p : Admin.SetupPhase) (t : Tab) : Tab :=
  {| view := view t; isFlashing := isFlashing t; userId := userId t;
     flashIntervalRef := flashIntervalRef t; channelRef := channelRef t;
     setup := p; intervals := intervals t; nextHandle := nextHandle t;
     bodyBackground := bodyBackground t; tracked := tracked t |}.

(** [document.body.style.backgroundColor = colour] *)
Definition setBodyBackground (colour : string) (t : Tab) : Tab :=
  {| view := view t; isFlashing := isFlashing t; userId := userId t;
     flashIntervalRef := flashIntervalRef t; channelRef := channelRef t;
     setup := setup t; intervals := intervals t; nextHandle := nextHandle t;
     bodyBackground := colour; tracked := tracked t |}.

(** [setInterval(...)]: the handle returned and the tab with the timer
    scheduled. *)
Definition setInterval (t : Tab) : nat * Tab :=
  (nextHandle t,
   {| view := view t; isFlashing := isFlashing t; userId := userId t;
      flashIntervalRef := flashIntervalRef t; channelRef := channelRef t;
      setup := setup t; intervals := nextHandle t :: intervals t;
      nextHandle := S (nextHandle t);
      bodyBackground := bodyBackground t; tracked := tracked t |}).

Definition clearInterval (h : nat) (t : Tab) : Tab :=
  {| view := view t; isFlashing := isFlashing t; userId := userId t;
     flashIntervalRef := flashIntervalRef t; channelRef := channelRef t;
     setup := setup t; intervals := List.remove Nat.eq_dec h (intervals t);
     nextHandle := nextHandle t;
     bodyBackground := bodyBackground t; tracked := tracked t |}.

(** [await localChannel.track(payload)] *)
Definition track (payload : PresencePayload) (t : Tab) : Tab :=
  {| view := view t; isFlashing := isFlashing t; userId := userId t;
     flashIntervalRef := flashIntervalRef t; channelRef := channelRef t;
     setup := setup t; intervals := intervals t; nextHandle := nextHandle t;
     bodyBackground := bodyBackground t; tracked := payload :: tracked t |}.

Definition setState (s : State) (t : Tab) : Tab :=
  setView (Client.apply_call (view t) (Client.setState s)) t.

Definition setWinner (w : option string) (t : Tab) : Tab :=
  setView (Client.apply_call (view t) (Client.setWinner w)) t.

(** ** The flashing effect, [useEffect(..., [state])]

    [colour] is what [getRandomColor()] returns where the body calls
    it. *)
Definition flashEffect (colour : string) (t : Tab) : Tab :=
  if State_eqb (Client.state (view t)) DRAWING then
    let t := setIsFlashing true t in
    let t := setBodyBackground colour t in
    let '(h, t) := setInterval t in
    setFlashIntervalRef (Some h) t
  else
    let t := setIsFlashing false t in
    let t :=
      match flashIntervalRef t with
      | Some h => setFlashIntervalRef None (clearInterval h t)
      | None => t
      end in
    setBodyBackground EmptyString t.

(** The function the effect returns. *)
Definition flashCleanup (t : Tab) : Tab :=
  let t :=
    match flashIntervalRef t with
    | Some h => clearInterval h t
    | None => t
    end in
  setBodyBackground EmptyString t.

(** After a callback that left [state] different from [before], React
    renders again and runs the effect's cleanup and then its body; when
    [state] is the same the effect does not run. *)
Definition rerender (before : State) (colour : string) (t : Tab) : Tab :=
  if State_eqb before (Client.state (view t)) then t
  else flashEffect colour (flashCleanup t).

(** ** [setupSubscription] and the listeners *)

Definition setup_fetched (r : Admin.FetchResult) (t : Tab) : Tab :=
  match r with
  | Admin.FetchData data =>
      let t := setState (Supabase.state data) t in
      let t := setWinner (Supabase.winner data) t in
      setChannelRef (Some RAFFLE_ROOM_CHANNEL) t
  | Admin.FetchError _ | Admin.FetchNoData => setState ERROR t
  end.

Definition on_postgres_changes (new : PublicData) (t : Tab) : Tab :=
  setView (fold_left Client.apply_call (Client.on_postgres_changes new) (view t)) t.

(** The callback of [localChannel.subscribe]; [now] is
    [new Date().toISOString()]. *)
Definition on_status (status now : string) (t : Tab) : Tab :=
  if String.eqb status "SUBSCRIBED" then
    track {| user := userId t; online_at := now |} t
  else if String.eqb status "CLOSED" then t
  else if String.prefix "CHANNEL_ERROR" status then setState ERROR t
  else t.

Inductive Event : Type :=
| Mounted (colour : string)
    (* the effects run for the first time *)
| Fetched (r : Admin.FetchResult) (colour : string)
    (* the initial fetch settles *)
| Changed (new : PublicData) (colour : string)
    (* the bus delivers an UPDATE of the raffle row *)
| StatusChanged (status now colour : string)
    (* the bus reports a channel status *)
| Ticked (h : nat) (colour : string).
    (* the interval timer [h] fires *)

Definition step (e : Event) (t : Tab) : Tab :=
  match e with
  | Mounted colour =>
      match setup t with
      | Admin.NotMounted => setSetup Admin.AwaitingFetch (flashEffect colour t)
      | _ => t
      end
  | Fetched r colour =>
      match setup t with
      | Admin.AwaitingFetch =>
          rerender (Client.state (view t)) colour
            (setSetup Admin.SetupReturned (setup_fetched r t))
      | _ => t
      end
  | Changed new colour =>
      match channelRef t with
      | Some _ =>
          rerender (Client.state (view t)) colour (on_postgres_changes new t)
      | None => t
      end
  | StatusChanged status now colour =>
      match channelRef t with
      | Some _ => rerender (Client.state (view t)) colour (on_status status now t)
      | None => t
      end
  | Ticked h colour =>
      if List.existsb (Nat.eqb h) (intervals t) then setBodyBackground colour t
      else t
  end.

Definition run (es : list Event) (t : Tab) : Tab :=
  fold_left (fun t e => step e t) es t.

(** Unmounting runs the cleanup of the flashing effect and then the
    cleanup of the subscription effect; the channel given to [untrack]
    and [removeChannel], if any, is returned with the tab. *)
Definition unmount (t : Tab) : Tab * option string :=
  let t := flashCleanup t in
  let released := channelRef t in
  let t :=
    match channelRef t with
    | Some _ => setChannelRef None t
    | None => t
    end in
  let t :=
    match flashIntervalRef t with
    | Some h => clearInterval h t
    | None => t
    end in
  (setBodyBackground EmptyString t, released).

(** What the flashing effect maintains: the tab flashes, with exactly one
    interval timer running, while it shows [DRAWING]; otherwise no timer
    runs and the background is reset. *)
Definition flashing_in_step (t : Tab) : Prop :=
  isFlashing t = State_eqb (Client.state (view t)) DRAWING /\
  (forall h, flashIntervalRef t = Some h -> (h < nextHandle t)%nat) /\
  if State_eqb (Client.state (view t)) DRAWING then
    exists h, flashIntervalRef t = Some h /\ intervals t = [h]
  else
    flashIntervalRef t = None /\ intervals t = [] /\
    bodyBackground t = EmptyString.

End HomePage.

Module SecondHome.
Import Supabase.

(** The cells and refs of the second [Home] that its subscription reads
    and writes.  [state] may come to hold [undefined], which is [None]. *)
Record Tab : Type := {
  state : option State;
  winner : option string;
  userId : string;
  channelRef : option string;
  tracked : list HomePage.PresencePayload
}.

(** What [await supabase...single()] does: it resolves to an object whose
    [data] is the row or [null], or it throws. *)
Inductive FetchOutcome : Type :=
| Resolved (data : option PublicData)
| Thrown.

(** [setupSubscription] once the fetch has settled: the [try]/[catch],
    then the channel, whatever the outcome. *)
Definition setup_fetched (o : FetchOutcome) (t : Tab) : Tab :=
  let '(s, w) :=
    match o with
    | Resolved (Some data) =>
        (Some (Supabase.state data), Supabase.winner data)
    | Resolved None => (None, None)
    | Thrown => (Some ERROR, winner t)
    end in
  {| state := s; winner := w; userId := userId t;
     channelRef := Some RAFFLE_ROOM_CHANNEL; tracked := tracked t |}.

(** The callback of [localChannel.subscribe]. *)
Definition on_status (status now : string) (t : Tab) : Tab :=
  if String.eqb status "SUBSCRIBED" then
    {| state := state t; winner := winner t; userId := userId t;
       channelRef := channelRef t;
       tracked := {| HomePage.user := userId t; HomePage.online_at := now |}
                  :: tracked t |}
  else t.

End SecondHome.

Module MoreSamples.
Import Supabase Admin Utilities.

(** An identifier as [generateUniqueUserId] makes them. *)
Definition someUser : string :=
  generateUniqueUserId 1745466081000 "0.4fzyo82mvyr".

(** The page shows [WAITING] and one client with a generated identifier
    is present. *)
Definition waitingSession : Session :=
  run (Samples.attended WAITING [someUser]) initialSession.

(** The initial fetch has just returned a record in state [s]; the
    timer that setup scheduled has not fired yet. *)
Definition justFetched (s : State) : Session :=
  run [Mounted; Fetched Samples.now (FetchData (Samples.recordIn s None))]
    initialSession.

End MoreSamples.

(* ================================================================== *)
(** * Binary64 arithmetic: the random index stays inside the array *)
(* ================================================================== *)
Section Digits.

Lemma digits2_pos_bounds (p : positive) :
  2 ^ (Zpos (digits2_pos p) - 1) <= Zpos p < 2 ^ Zpos (digits2_pos p).
Proof.
  induction p as [p IH | p IH | ]; cbn [digits2_pos].
  - rewrite Pos2Z.inj_succ.
    replace (Z.succ (Zpos (digits2_pos p)) - 1) with (Z.succ (Zpos (digits2_pos p) - 1)) by lia.
    rewrite !Z.pow_succ_r by lia. lia.
  - rewrite Pos2Z.inj_succ.
    replace (Z.succ (Zpos (digits2_pos p)) - 1) with (Z.succ (Zpos (digits2_pos p) - 1)) by lia.
    rewrite !Z.pow_succ_r by lia. lia.
  - cbn. lia.
Qed.

Lemma digits2_pos_le (p : positive) (k : Z) :
  0 <= k -> Zpos p < 2 ^ k -> Zpos (digits2_pos p) <= k.
Proof.
  intros Hk Hlt.
  destruct (digits2_pos_bounds p) as [Hlo _].
  destruct (Z_le_gt_dec (Zpos (digits2_pos p)) k) as [|Hgt]; [assumption|].
  exfalso.
  assert (2 ^ k <= 2 ^ (Zpos (digits2_pos p) - 1)) by (apply Z.pow_le_mono_r; lia).
  lia.
Qed.

Lemma digits2_pos_ge (p : positive) (k : Z) :
  2 ^ k <= Zpos p -> k < Zpos (digits2_pos p).
Proof.
  intros Hle.
  destruct (digits2_pos_bounds p) as [_ Hhi].
  destruct (Z_lt_le_dec k (Zpos (digits2_pos p))) as [|Hge]; [assumption|].
  exfalso.
  assert (2 ^ Zpos (digits2_pos p) <= 2 ^ k) by (apply Z.pow_le_mono_r; lia).
  lia.
Qed.

Lemma digits2_pos_iter_xO (k p : positive) :
  Zpos (digits2_pos (Pos.iter xO p k)) = Zpos (digits2_pos p) + Zpos k.
Proof.
  revert p. induction k as [|k IH] using Pos.peano_ind; intros p.
  - cbn [Pos.iter digits2_pos]. lia.
  - rewrite Pos.iter_succ. cbn [digits2_pos]. rewrite !Pos2Z.inj_succ, IH. lia.
Qed.

Lemma iter_xO_value (k p : positive) :
  Zpos (Pos.iter xO p k) = Zpos p * 2 ^ Zpos k.
Proof.
  revert p. induction k as [|k IH] using Pos.peano_ind; intros p.
  - cbn. lia.
  - rewrite Pos.iter_succ, Pos2Z.inj_xO, IH, Pos2Z.inj_succ, Z.pow_succ_r by lia. lia.
Qed.

End Digits.

Section Shifting.

Import Number.

Lemma shr_1_quotient (x : shr_record) :
  0 <= shr_m x ->
  shr_m (shr_1 x) = shr_m x / 2 /\
  (shr_r (shr_1 x) = true -> shr_m x mod 2 = 1).
Proof.
  destruct x as [m r s]; cbn [shr_m shr_r shr_1]. intros Hm.
  destruct m as [|[p|p|]|p]; cbn [shr_m shr_r]; try lia.
  - split; [|discriminate]. reflexivity.
  - rewrite Pos2Z.inj_xI. split.
    + apply Z.div_unique with (r := 1); lia.
    + intros _. symmetry. apply Z.mod_unique with (q := Zpos p); lia.
  - rewrite Pos2Z.inj_xO. split; [|discriminate].
    apply Z.div_unique with (r := 0); lia.
  - split; reflexivity.
Qed.

Lemma shr_inv_step (P k : Z) (x : shr_record) :
  0 <= P -> shr_inv P k x -> shr_inv P (k + 1) (shr_1 x).
Proof.
  intros HP (Hk & Hm & _).
  assert (Hpow : 0 < 2 ^ k) by (apply Z.pow_pos_nonneg; lia).
  assert (Hq : 0 <= shr_m x) by (rewrite Hm; apply Z.div_pos; lia).
  destruct (shr_1_quotient x Hq) as [Hm' Hr'].
  assert (Hsucc : 2 ^ (k + 1) = 2 ^ k * 2) by (rewrite Z.pow_add_r by lia; reflexivity).
  split; [lia|]. split.
  - rewrite Hm', Hm, Hsucc, Z.div_div by lia. reflexivity.
  - intros Hr. specialize (Hr' Hr). rewrite Hm in Hr'.
    rewrite Hsucc, Z.rem_mul_r by lia. rewrite Hr'.
    pose proof (Z.mod_pos_bound P (2 ^ k) Hpow). lia.
Qed.

Lemma shr_inv_iter (P : Z) (p : positive) :
  0 <= P ->
  forall k x, shr_inv P k x -> shr_inv P (k + Zpos p) (iter_pos shr_1 p x).
Proof.
  intros HP. induction p as [p IH | p IH | ]; intros k x Hx; cbn [iter_pos].
  - replace (k + Zpos p~1) with (k + 1 + Zpos p + Zpos p) by lia.
    apply IH, IH, shr_inv_step; assumption.
  - replace (k + Zpos p~0) with (k + Zpos p + Zpos p) by lia.
    apply IH, IH; assumption.
  - apply shr_inv_step; assumption.
Qed.

Lemma shr_inv_start (P : Z) : 0 <= P -> shr_inv P 0 (shr_record_of_loc P loc_Exact).
Proof.
  intros HP. unfold shr_inv; cbn. split; [lia|]. split; [|discriminate].
  rewrite Z.div_1_r. reflexivity.
Qed.

(** An exact mantissa shifted towards its canonical exponent. *)
Lemma shr_fexp_exact (m e : Z) :
  0 <= m ->
  let s := fexp Number.prec Number.emax (Zdigits2 m + e) - e in
  let res := shr_fexp Number.prec Number.emax m e loc_Exact in
  (s <= 0 /\ res = (shr_record_of_loc m loc_Exact, e)) \/
  (0 < s /\ snd res = e + s /\ shr_inv m s (fst res)).
Proof.
  intros Hm s res. subst res. unfold shr_fexp. fold s.
  destruct s as [|p|p] eqn:Es; cbn [shr].
  - left. split; [lia|reflexivity].
  - right. split; [lia|]. split; [reflexivity|]. cbn [fst].
    apply (shr_inv_iter m p Hm 0), shr_inv_start; assumption.
  - left. split; [lia|reflexivity].
Qed.

Lemma round_nearest_even_bounds (x : shr_record) :
  let q := round_nearest_even (shr_m x) (loc_of_shr_record x) in
  shr_m x <= q <= shr_m x + 1 /\ (q <> shr_m x -> shr_r x = true).
Proof.
  destruct x as [m [|] [|]]; cbn [shr_m shr_r loc_of_shr_record round_nearest_even].
  - split; [lia|reflexivity].
  - destruct (Z.even m); split; try lia; reflexivity.
  - split; [lia|]. intros H; contradiction H; reflexivity.
  - split; [lia|]. intros H; contradiction H; reflexivity.
Qed.

End Shifting.

Section Encoding.

Import Number.

Lemma fexp_unfold (x : Z) : fexp prec emax x = Z.max (x - 53) (-1074).
Proof. reflexivity. Qed.

(** A mantissa that already sits at its canonical exponent is returned as
    it is by the rounding step. *)
Lemma binary_round_aux_canonical (s : bool) (m : positive) (e : Z) :
  fexp prec emax (Zpos (digits2_pos m) + e) = e ->
  e <= 971 ->
  binary_round_aux prec emax s (Zpos m) e loc_Exact = S754_finite s m e.
Proof.
  intros Hc He.
  assert (Hs : shr_fexp prec emax (Zpos m) e loc_Exact
               = (shr_record_of_loc (Zpos m) loc_Exact, e)).
  { unfold shr_fexp. cbn [Zdigits2]. rewrite Hc, Z.sub_diag. reflexivity. }
  unfold binary_round_aux. rewrite Hs. cbn [shr_record_of_loc shr_m loc_of_shr_record round_nearest_even].
  rewrite Hs. cbn [shr_record_of_loc shr_m].
  replace (emax - prec) with 971 by reflexivity.
  destruct (Z.leb_spec e 971); [reflexivity|lia].
Qed.

(** The Number of a positive integer below [2^53] is that integer, held
    exactly on a normalised 53-bit mantissa. *)
Lemma of_nat_normal (n : nat) :
  0 < Z.of_nat n < 2 ^ 53 ->
  exists mn en,
    of_nat n = S754_finite false mn en /\
    -52 <= en <= 0 /\
    Zpos mn = Z.of_nat n * 2 ^ (- en) /\
    2 ^ 52 <= Zpos mn < 2 ^ 53.
Proof.
  intros [Hpos Hlt]. unfold of_nat.
  destruct (Z.of_nat n) as [|p|p] eqn:En; try lia. clear En n.
  cbn [binary_normalize]. unfold binary_round.
  pose proof (digits2_pos_bounds p) as Hd.
  pose proof (digits2_pos_le p 53 ltac:(lia) Hlt) as Hd53.
  set (d := Zpos (digits2_pos p)) in *.
  assert (Hfexp : fexp prec emax (d + 0) = d - 53).
  { rewrite fexp_unfold. lia. }
  rewrite Hfexp. unfold shl_align.
  destruct (d - 53 - 0) as [|k|k] eqn:Ek; try lia.
  - (* the integer already fills the mantissa *)
    assert (d = 53) by lia.
    exists p, 0. split; [|split; [lia|split]].
    + apply binary_round_aux_canonical; [|lia].
      fold d. rewrite fexp_unfold. lia.
    + cbn. lia.
    + replace (53 - 1) with 52 in Hd by lia. rewrite H in Hd. lia.
  - (* shifted left by [53 - d] places *)
    assert (Hk : Zpos k = 53 - d) by lia.
    exists (Pos.iter xO p k), (d - 53).
    pose proof (digits2_pos_iter_xO k p) as Hdk. fold d in Hdk.
    pose proof (digits2_pos_bounds (Pos.iter xO p k)) as Hb.
    rewrite Hdk in Hb. replace (d + Zpos k) with 53 in Hb by lia.
    split; [|split; [lia|split]].
    + apply binary_round_aux_canonical; [|lia].
      rewrite Hdk, fexp_unfold. lia.
    + rewrite iter_xO_value. f_equal. f_equal. lia.
    + replace (53 - 1) with 52 in Hb by lia. exact Hb.
Qed.

(** The shape of a non-zero value of [Math.random()]. *)
Lemma is_random_finite (m : positive) (e : Z) :
  is_random (S754_finite false m e) = true ->
  -1074 <= e <= -53 /\ Zpos m < 2 ^ 53.
Proof.
  unfold is_random, valid, valid_binary, bounded, canonical_mantissa.
  rewrite !andb_true_iff, Z.eqb_eq, fexp_unfold.
  intros [[Hc _] Hlt].
  pose proof (digits2_pos_bounds m) as Hd.
  set (d := Zpos (digits2_pos m)) in *. clearbody d.
  assert (Hd53 : d <= 53) by lia.
  assert (Hm : Zpos m < 2 ^ 53).
  { destruct Hd as [_ Hhi]. eapply Z.lt_le_trans; [exact Hhi|].
    apply Z.pow_le_mono_r; lia. }
  split; [|exact Hm]. split; [lia|].
  unfold SFltb, SFcompare, one in Hlt.
  destruct (Z.compare_spec e (-52)) as [Heq | Hl | Hg]; try lia; try discriminate.
  (* [e = -52] would need a mantissa below [2^52], which is not canonical *)
  exfalso. subst e.
  assert (Hd' : d = 53) by lia.
  destruct (PosDef.Pos.compare_cont Eq m 4503599627370496) eqn:Ec; try discriminate.
  assert (Hlt' : (m < 4503599627370496)%positive) by exact Ec.
  destruct Hd as [Hlo _].
  assert (Hd1 : d - 1 = 52) by (clear - Hd'; lia).
  rewrite Hd1 in Hlo.
  assert (Hc52 : 2 ^ 52 = 4503599627370496) by reflexivity.
  rewrite Hc52 in Hlo. apply Pos2Z.pos_lt_pos in Hlt'. clear - Hlo Hlt'. lia.
Qed.

End Encoding.

Section Product.

Import Number.

(** Rounding to nearest cannot reach the bound [mn * 2^K] from a product
    [m * mn] with [m < 2^K]: half a unit of the result is less than [mn]. *)
Lemma rne_below (m mn A B q : Z) :
  0 < A -> 0 < B ->
  1 <= m <= A * B - 1 ->
  0 < mn -> A < 2 * mn ->
  q <= (m * mn) / A + 1 ->
  (q <> (m * mn) / A -> A <= 2 * ((m * mn) mod A)) ->
  q * A < mn * (A * B).
Proof.
  intros HA HB Hm Hmn Hhalf Hq Hup.
  pose proof (Z.div_mod (m * mn) A ltac:(lia)) as Hdm.
  pose proof (Z.mod_pos_bound (m * mn) A HA) as Hrho.
  set (d := (m * mn) / A) in *. set (rho := (m * mn) mod A) in *.
  assert (HP : m * mn <= mn * (A * B) - mn) by nia.
  destruct (Z.eq_dec q d) as [-> | Hne].
  - nia.
  - specialize (Hup Hne). assert (q * A <= d * A + A) by nia. nia.
Qed.

Lemma floor_shift_lt (m3 e3 E nZ : Z) :
  0 <= m3 -> E <= e3 -> E <= 0 ->
  m3 * 2 ^ (e3 - E) < nZ * 2 ^ (- E) ->
  0 <= Z.shiftl m3 e3 < nZ.
Proof.
  intros Hm3 HE HE0 Hlt.
  assert (HpE : 0 < 2 ^ (- E)) by (apply Z.pow_pos_nonneg; lia).
  destruct (Z_le_gt_dec 0 e3) as [Hpos | Hneg].
  - rewrite Z.shiftl_mul_pow2 by assumption.
    assert (Hp3 : 0 < 2 ^ e3) by (apply Z.pow_pos_nonneg; lia).
    replace (e3 - E) with (e3 + - E) in Hlt by lia.
    rewrite Z.pow_add_r in Hlt by lia.
    split; [nia|]. nia.
  - rewrite Z.shiftl_div_pow2 by lia.
    assert (Hp3 : 0 < 2 ^ (- e3)) by (apply Z.pow_pos_nonneg; lia).
    assert (Hpt : 0 < 2 ^ (e3 - E)) by (apply Z.pow_pos_nonneg; lia).
    assert (Hsplit : 2 ^ (- E) = 2 ^ (- e3) * 2 ^ (e3 - E)).
    { rewrite <- Z.pow_add_r by lia. f_equal. lia. }
    pose proof (Z.div_mod m3 (2 ^ (- e3)) ltac:(lia)) as Hdm.
    pose proof (Z.mod_pos_bound m3 (2 ^ (- e3)) Hp3) as Hr.
    set (z := m3 / 2 ^ (- e3)) in *.
    split.
    + apply Z.div_pos; lia.
    + rewrite Hsplit in Hlt.
      assert (z * 2 ^ (- e3) <= m3) by lia.
      nia.
Qed.

(** The second alignment of [binary_round_aux] only truncates. *)
Lemma shr_fexp_truncates (q e1 : Z) :
  0 <= q ->
  exists s2,
    0 <= s2 /\
    snd (shr_fexp prec emax q e1 loc_Exact) = e1 + s2 /\
    0 <= shr_m (fst (shr_fexp prec emax q e1 loc_Exact)) /\
    shr_m (fst (shr_fexp prec emax q e1 loc_Exact)) * 2 ^ s2 <= q.
Proof.
  intros Hq.
  destruct (shr_fexp_exact q e1 Hq) as [[_ ->] | (Hs & -> & Hk & Hm & _)].
  - exists 0. cbn [fst snd shr_record_of_loc shr_m]. lia.
  - eexists. split; [|split; [reflexivity|]]; [lia|].
    rewrite Hm.
    match goal with |- context [2 ^ ?s] => set (A := 2 ^ s);
      assert (HA : 0 < A) by (apply Z.pow_pos_nonneg; lia) end.
    pose proof (Z.div_mod q A ltac:(lia)) as Hdm.
    pose proof (Z.mod_pos_bound q A HA) as Hr.
    split; [apply Z.div_pos; lia | nia].
Qed.

(** Everything [binary_round_aux] can return from a mantissa and exponent
    whose value lies below [N * 2^E], with [N] at most [2^(53-E)]. *)
Lemma round_stage2_below (q e1 E N : Z) :
  0 <= q -> E <= e1 -> E <= 0 ->
  q * 2 ^ (e1 - E) < N * 2 ^ (- E) -> N <= 2 ^ 53 ->
  exists z,
    floor (let '(mrs, e2) := shr_fexp prec emax q e1 loc_Exact in
           match shr_m mrs with
           | Z0 => S754_zero false
           | Zpos m3 =>
               if Z.leb e2 (emax - prec) then S754_finite false m3 e2
               else S754_infinity false
           | Zneg _ => S754_nan
           end) = Some z /\ 0 <= z < N.
Proof.
  intros Hq HE HE0 Hlt HN.
  destruct (shr_fexp_truncates q e1 Hq) as (s2 & Hs2 & He2 & Hm3 & Hle).
  destruct (shr_fexp prec emax q e1 loc_Exact) as [mrs e2]. cbn [fst snd] in *.
  assert (HpE : 0 < 2 ^ (- E)) by (apply Z.pow_pos_nonneg; lia).
  assert (Hp1 : 0 < 2 ^ (e1 - E)) by (apply Z.pow_pos_nonneg; lia).
  assert (HposN : 0 < N) by nia.
  assert (Hbound : shr_m mrs * 2 ^ (e2 - E) < N * 2 ^ (- E)).
  { replace (e2 - E) with (s2 + (e1 - E)) by lia.
    rewrite Z.pow_add_r by lia. nia. }
  destruct (shr_m mrs) as [|m3|m3] eqn:Em; [| |lia].
  - exists 0. split; [reflexivity|lia].
  - assert (He2' : e2 < 53).
    { assert (Hp2 : 0 < 2 ^ (e2 - E)) by (apply Z.pow_pos_nonneg; lia).
      assert (H53 : 2 ^ 53 * 2 ^ (- E) = 2 ^ (53 - E)).
      { rewrite <- Z.pow_add_r by lia. f_equal. }
      assert (2 ^ (e2 - E) < 2 ^ (53 - E)) by nia.
      apply Z.pow_lt_mono_r_iff in H; lia. }
    replace (emax - prec) with 971 by reflexivity.
    destruct (Z.leb_spec e2 971); [|lia].
    eexists. split; [reflexivity|]. cbn [cond_Zopp].
    apply (floor_shift_lt (Zpos m3) e2 E N); lia.
Qed.

End Product.

Section RandomIndex.

Import Number.

(** [Math.floor(Math.random() * n)] for a non-zero random value. *)
Lemma mul_random_finite_below (m : positive) (e : Z) (n : nat) :
  is_random (S754_finite false m e) = true ->
  0 < Z.of_nat n < 2 ^ 53 ->
  exists z,
    floor (mul (S754_finite false m e) (of_nat n)) = Some z /\
    0 <= z < Z.of_nat n.
Proof.
  intros Hr Hn.
  destruct (is_random_finite m e Hr) as [He Hm].
  destruct (of_nat_normal n Hn) as (mn & en & -> & Hen & Hmn & Hmnb).
  unfold mul. cbn [SFmul xorb]. unfold binary_round_aux.
  set (E := e + en).
  assert (HE0 : E <= 0) by (unfold E; lia).
  (* the bound, scaled by [2^(-E)]: [n * 2^(-E) = mn * 2^(-e)] *)
  assert (HpK : 0 < 2 ^ (- e)) by (apply Z.pow_pos_nonneg; lia).
  assert (HN : Z.of_nat n * 2 ^ (- E) = Zpos mn * 2 ^ (- e)).
  { unfold E. replace (- (e + en)) with (- en + - e) by lia.
    rewrite Z.pow_add_r by lia. rewrite Hmn. ring. }
  assert (HmK : Zpos m < 2 ^ (- e)).
  { eapply Z.lt_le_trans; [exact Hm|]. apply Z.pow_le_mono_r; lia. }
  assert (HP : Zpos (m * mn) = Zpos m * Zpos mn) by apply Pos2Z.inj_mul.
  pose proof (digits2_pos_bounds (m * mn)) as Hd.
  assert (Hd1 : Zpos (digits2_pos (m * mn)) <= 53 + - e).
  { apply digits2_pos_le; [lia|]. rewrite HP, Z.pow_add_r by lia. nia. }
  assert (Hd2 : Zpos (digits2_pos (m * mn)) <= 106).
  { apply digits2_pos_le; [lia|]. rewrite HP.
    change 106 with (53 + 53). rewrite Z.pow_add_r by lia. nia. }
  pose proof (shr_fexp_exact (Zpos (m * mn)) E ltac:(lia)) as Hshr.
  cbv zeta in Hshr. cbn [Zdigits2] in Hshr. rewrite fexp_unfold in Hshr.
  set (d := Zpos (digits2_pos (m * mn))) in *. clearbody d.
  destruct (shr_fexp prec emax (Zpos (m * mn)) E loc_Exact) as [mrs1 e1].
  destruct Hshr as [[_ Heq] | (Hs & He1 & _ & Hq & Hr1)]; cbn [fst snd] in *.
  - (* no bit is dropped: the product is exact *)
    injection Heq as -> ->.
    cbn [shr_record_of_loc shr_m loc_of_shr_record round_nearest_even].
    apply (round_stage2_below _ E E (Z.of_nat n)); try lia.
    rewrite HN, Z.sub_diag, HP. cbn [Z.pow]. nia.
  - (* [s] bits are dropped and the mantissa is rounded *)
    destruct (round_nearest_even_bounds mrs1) as [[Hlo Hhi] Hne].
    assert (Hq0 : 0 <= shr_m mrs1).
    { rewrite Hq. apply Z.div_pos; [lia|]. apply Z.pow_pos_nonneg; lia. }
    apply (round_stage2_below _ e1 E (Z.of_nat n)); try lia.
    rewrite HN.
    cbv zeta in Hhi, Hne.
    set (q := round_nearest_even (shr_m mrs1) (loc_of_shr_record mrs1)) in *.
    clearbody q.
    set (s := Z.max (d + E - 53) (-1074) - E) in *.
    replace (e1 - E) with s by lia.
    (* at most [-e] bits are dropped, and at most 53 *)
    assert (HsK : s <= - e) by (unfold s, E; lia).
    assert (Hs53 : s <= 53) by (unfold s, E; lia).
    assert (HpA : 0 < 2 ^ s) by (apply Z.pow_pos_nonneg; lia).
    assert (HpB : 0 < 2 ^ (- e - s)) by (apply Z.pow_pos_nonneg; lia).
    assert (HAB : 2 ^ (- e) = 2 ^ s * 2 ^ (- e - s)).
    { rewrite <- Z.pow_add_r by lia. f_equal. lia. }
    assert (Hhalf : 2 ^ s < 2 * Zpos mn).
    { destruct (Z.eq_dec s 53) as [Hs' | Hs'].
      - (* 53 bits dropped: the product has 106 bits *)
        assert (d = 106) by (unfold s, E in Hs'; lia).
        destruct Hd as [Hbig _]. rewrite H in Hbig.
        change (106 - 1) with (53 + 52) in Hbig.
        rewrite Z.pow_add_r, HP in Hbig by lia.
        rewrite Hs'. change 53 with (Z.succ 52) at 1.
        rewrite Z.pow_succ_r by lia.
        assert (0 < 2 ^ 52) by (apply Z.pow_pos_nonneg; lia).
        assert (2 ^ 52 <> Zpos mn); [|lia].
        intros Heq. rewrite <- Heq in Hbig. nia.
      - assert (2 ^ s <= 2 ^ 52) by (apply Z.pow_le_mono_r; lia).
        lia. }
    rewrite HAB.
    rewrite HP in Hq, Hr1.
    apply rne_below with (m := Zpos m); try lia.
    rewrite <- Hq. intros Hneq. apply Hr1, Hne, Hneq.
Qed.

(** [Math.floor(Math.random() * n)] is an index below [n]. *)
Theorem random_index_in_range (r : double) (n : nat) :
  is_random r = true ->
  0 < Z.of_nat n < 2 ^ 53 ->
  exists z, floor (mul r (of_nat n)) = Some z /\ 0 <= z < Z.of_nat n.
Proof.
  intros Hr Hn.
  destruct r as [[|] | | | [|] m e]; try discriminate.
  - destruct (of_nat_normal n Hn) as (mn & en & -> & _).
    exists 0. split; [reflexivity|lia].
  - apply mul_random_finite_below; assumption.
Qed.

End RandomIndex.

(* ================================================================== *)
(** * pickRandomElement *)
(* ================================================================== *)

Section PickRandomElementFacts.

Import Supabase.
Context {T : Type}.

Lemma array_length_is_exact (l : list T) :
  Z.of_nat (List.length l) <= MAX_ARRAY_LENGTH ->
  Z.of_nat (List.length l) < 2 ^ 53.
Proof.
  unfold MAX_ARRAY_LENGTH. intros H.
  eapply Z.le_lt_trans; [exact H|]. reflexivity.
Qed.

(** On a non-empty array the index computed is one of its positions. *)
Lemma randomIndex_in_bounds (rnd : Number.double) (l : list T) :
  Number.is_random rnd = true ->
  l <> [] ->
  Z.of_nat (List.length l) <= MAX_ARRAY_LENGTH ->
  exists z, randomIndex rnd l = Some z /\ 0 <= z < Z.of_nat (List.length l).
Proof.
  intros Hr Hne Hlen. unfold randomIndex.
  apply random_index_in_range; [assumption|].
  split; [|apply array_length_is_exact; assumption].
  destruct l; [contradiction|cbn [List.length]; lia].
Qed.

Lemma element_at_in_bounds (l : list T) (z : Z) :
  0 <= z < Z.of_nat (List.length l) ->
  exists x, element_at l (Some z) = Some x /\ In x l /\
            nth_error l (Z.to_nat z) = Some x.
Proof.
  intros Hz. cbn [element_at].
  destruct (Z.ltb_spec z 0); [lia|].
  destruct (nth_error l (Z.to_nat z)) as [x|] eqn:Ex.
  - exists x. split; [reflexivity|]. split; [|reflexivity].
    eapply nth_error_In; eassumption.
  - apply nth_error_None in Ex. lia.
Qed.

Lemma length_eqb_0 (l : list T) : Nat.eqb (List.length l) 0 = true <-> l = [].
Proof.
  destruct l; cbn; split; intros H; try reflexivity; discriminate.
Qed.

(** On a non-empty array the pick is one of the array's elements. *)
Lemma pickRandomElement_In (rnd : Number.double) (l : list T) :
  Number.is_random rnd = true ->
  Z.of_nat (List.length l) <= MAX_ARRAY_LENGTH ->
  l <> [] ->
  exists x, pickRandomElement rnd (js_elems l) = Some x /\ In x l.
Proof.
  intros Hr Hlen Hne.
  destruct (randomIndex_in_bounds rnd l Hr Hne Hlen) as (z & Hz & Hb).
  destruct (element_at_in_bounds l z Hb) as (x & Hx & Hin & _).
  exists x. split; [|exact Hin].
  cbn [pickRandomElement].
  destruct (Nat.eqb (List.length l) 0) eqn:E0.
  - apply length_eqb_0 in E0. contradiction.
  - cbv zeta. rewrite Hz. exact Hx.
Qed.

(** C5. For every non-empty candidate list, and whatever value
    [Math.random()] returns, [pickRandomElement] returns an element of
    that list. *)
Theorem pickRandomElement_member (rnd : Number.double) (candidates : list T) :
  Number.is_random rnd = true ->
  Z.of_nat (List.length candidates) <= MAX_ARRAY_LENGTH ->
  (1 <= List.length candidates)%nat ->
  exists x, pickRandomElement rnd (js_elems candidates) = Some x /\ In x candidates.
Proof.
  intros Hr Hlen Hpos. apply pickRandomElement_In; try assumption.
  intros ->. cbn in Hpos. lia.
Qed.

(** C10. [pickRandomElement] returns [undefined] on a missing or empty
    array without reading any index, and every index it reads on any
    array lies inside that array, where it finds the element returned. *)
Theorem pickRandomElement_total (rnd : Number.double) (arr : js_array T) :
  (arr = js_nullish \/ arr = js_elems [] ->
   pickRandomElement rnd arr = None /\ accessedIndex rnd arr = None) /\
  (Number.is_random rnd = true ->
   (forall l, arr = js_elems l -> Z.of_nat (List.length l) <= MAX_ARRAY_LENGTH) ->
   forall i, accessedIndex rnd arr = Some i ->
   exists l z,
     arr = js_elems l /\ i = Some z /\ 0 <= z < Z.of_nat (List.length l) /\
     pickRandomElement rnd arr = nth_error l (Z.to_nat z) /\
     pickRandomElement rnd arr <> None).
Proof.
  split.
  - intros [-> | ->]; split; reflexivity.
  - intros Hr Hlen i Hi. destruct arr as [|l]; [discriminate|].
    cbn [accessedIndex pickRandomElement] in *.
    destruct (Nat.eqb (List.length l) 0) eqn:E0; [discriminate|].
    assert (Hne : l <> []) by (intros ->; discriminate).
    destruct (randomIndex_in_bounds rnd l Hr Hne (Hlen l eq_refl)) as (z & Hz & Hb).
    destruct (element_at_in_bounds l z Hb) as (x & Hx & _ & Hnth).
    injection Hi as <-. exists l, z. cbv zeta. rewrite Hz, Hx, Hnth.
    repeat split; try lia; discriminate.
Qed.

End PickRandomElementFacts.

(** The product is rounded, not exact: for [r = (2^54 - 1) / (3 * 2^53)]
    the real product [3 * r] is [2 - 2^-53], which rounds to [2]. *)
Example randomIndex_is_rounded :
  Number.is_random (S754_finite false 6004799503160661 (-53)) = true /\
  Supabase.randomIndex (S754_finite false 6004799503160661 (-53))
    ["a"; "b"; "c"] = Some 2.
Proof. split; reflexivity. Qed.

(** The largest value [Math.random()] can return. *)
Example almost_one_is_random :
  Number.is_random (S754_finite false 9007199254740991 (-53)) = true.
Proof. reflexivity. Qed.

Lemma pickRandomElement_member_witness :
  exists x,
    Supabase.pickRandomElement (S754_finite false 9007199254740991 (-53))
      (Supabase.js_elems ["a"; "b"; "c"]) = Some x /\ In x ["a"; "b"; "c"].
Proof.
  apply (pickRandomElement_member (S754_finite false 9007199254740991 (-53))
           ["a"; "b"; "c"]).
  - reflexivity.
  - unfold Supabase.MAX_ARRAY_LENGTH. cbn. lia.
  - cbn. lia.
Defined.

Lemma pickRandomElement_total_witness :
  Supabase.pickRandomElement (S754_finite false 9007199254740991 (-53))
    (Supabase.js_elems (@nil string)) = None /\
  Supabase.accessedIndex (S754_finite false 9007199254740991 (-53))
    (Supabase.js_elems (@nil string)) = None.
Proof.
  apply (proj1 (pickRandomElement_total (S754_finite false 9007199254740991 (-53))
                  (Supabase.js_elems (@nil string)))).
  right. reflexivity.
Defined.

(* ================================================================== *)
(** * The admin page: guards and store writes *)
(* ================================================================== *)

Section AdminFacts.

Import Supabase Admin.

Lemma State_eqb_eq (a b : State) : State_eqb a b = true <-> a = b.
Proof. destruct a, b; cbn; split; intros H; try reflexivity; discriminate. Qed.

Lemma State_eqb_neq (a b : State) : State_eqb a b = false <-> a <> b.
Proof.
  destruct a, b; cbn; split; intros H; try reflexivity; try discriminate;
    try (contradiction H; reflexivity); intros E; discriminate.
Qed.

Lemma with_page_same (w : Session) : with_page (page w) w = w.
Proof. destruct w; reflexivity. Qed.

Lemma falsy_Some (s : string) : falsy (Some s) = true <-> s = EmptyString.
Proof. cbn [falsy]. apply String.eqb_eq. Qed.

(** ** What each handler does *)

Lemma handleStartDraw_rejects (c : AdminPage) :
  isLoading c = true \/ currentState c <> WAITING ->
  handleStartDraw c = (c, None).
Proof.
  intros H. unfold handleStartDraw.
  destruct (isLoading c); [reflexivity|].
  destruct H as [H | H]; [discriminate|].
  apply State_eqb_neq in H. rewrite H. reflexivity.
Qed.

Lemma handleStartDraw_writes (c : AdminPage) :
  isLoading c = false -> currentState c = WAITING ->
  handleStartDraw c =
    (setError None (setIsLoading true c),
     Some {| patch_state := DRAWING; patch_winner := None |}).
Proof.
  intros Hl Hs. unfold handleStartDraw. rewrite Hl, Hs. reflexivity.
Qed.


Lemma handleResetRaffle_writes (c : AdminPage) :
  isLoading c = false ->
  handleResetRaffle c =
    (setError None (setIsLoading true c),
     Some {| patch_state := WAITING; patch_winner := None |}).
Proof. intros H. unfold handleResetRaffle. rewrite H. reflexivity. Qed.

Lemma handlePickWinner_rejects (rnd : Number.double) (c : AdminPage) :
  isLoading c = true \/ currentState c <> DRAWING \/ userList c = [] ->
  handlePickWinner rnd c = (c, None).
Proof.
  intros H. unfold handlePickWinner. cbv zeta.
  destruct (isLoading c); [reflexivity|].
  destruct H as [H | [H | H]]; [discriminate| |].
  - apply State_eqb_neq in H. rewrite H. reflexivity.
  - rewrite H. cbn. rewrite orb_true_r. reflexivity.
Qed.

(** Past its guard, [handlePickWinner] picks from the list the guard
    looked at and branches on the truthiness of what it picked. *)
Lemma handlePickWinner_picks (rnd : Number.double) (c : AdminPage) :
  isLoading c = false -> currentState c = DRAWING -> userList c <> [] ->
  Number.is_random rnd = true ->
  Z.of_nat (List.length (userList c)) <= MAX_ARRAY_LENGTH ->
  exists winnerId,
    pickRandomElement rnd (js_elems (userList c)) = Some winnerId /\
    In winnerId (userList c) /\
    handlePickWinner rnd c =
      if String.eqb winnerId EmptyString then
        (setIsLoading false
           (setError (Some "No users connected to pick a winner from.")
              (setError None (setIsLoading true c))), None)
      else
        (setError None (setIsLoading true c),
         Some {| patch_state := DRAWN; patch_winner := Some winnerId |}).
Proof.
  intros Hl Hs Hne Hr Hlen.
  destruct (pickRandomElement_In rnd (userList c) Hr Hlen Hne)
    as (winnerId & Hpick & Hin).
  exists winnerId. split; [exact Hpick|]. split; [exact Hin|].
  unfold handlePickWinner. cbv zeta. rewrite Hl, Hs.
  destruct (Nat.eqb (List.length (userList c)) 0) eqn:E0.
  { apply length_eqb_0 in E0. contradiction. }
  cbn [State_eqb negb orb]. rewrite Hpick. cbn [falsy].
  destruct (String.eqb winnerId EmptyString); reflexivity.
Qed.

(** Whatever a handler sends has the shape its transition prescribes. *)
Lemma handle_patch_shape (h : Handler) (rnd : Number.double)
    (c c' : AdminPage) (p : Patch) :
  handle h rnd c = (c', Some p) ->
  match h with
  | StartDraw => p = {| patch_state := DRAWING; patch_winner := None |}
  | ResetRaffle => p = {| patch_state := WAITING; patch_winner := None |}
  | PickWinner =>
      exists w, w <> EmptyString /\ p = {| patch_state := DRAWN; patch_winner := Some w |}
  end.
Proof.
  destruct h; cbn [handle].
  - unfold handleStartDraw.
    destruct (isLoading c || negb (State_eqb (currentState c) WAITING));
      intros H; inversion H; reflexivity.
  - unfold handlePickWinner. cbv zeta.
    destruct (isLoading c || negb (State_eqb (currentState c) DRAWING)
              || Nat.eqb (List.length (userList c)) 0); [discriminate|].
    destruct (pickRandomElement rnd (js_elems (userList c))) as [w|] eqn:Ep;
      cbn [falsy]; [|discriminate].
    destruct (String.eqb_spec w EmptyString); [discriminate|].
    intros H; inversion H. exists w. split; [assumption|reflexivity].
  - unfold handleResetRaffle.
    destruct (isLoading c); intros H; inversion H; reflexivity.
Qed.

Lemma handle_patch_invariant (h : Handler) (rnd : Number.double)
    (c c' : AdminPage) (p : Patch) :
  handle h rnd c = (c', Some p) -> patch_invariant p.
Proof.
  intros H. apply handle_patch_shape in H. unfold patch_invariant.
  destruct h.
  - subst p; cbn. split; [intros E; contradiction E; reflexivity|discriminate].
  - destruct H as (w & _ & ->); cbn. split; [reflexivity|discriminate].
  - subst p; cbn. split; [intros E; contradiction E; reflexivity|discriminate].
Qed.

(** A step adds to the writes at most what the invoked handler sent. *)
Lemma step_written (e : Event) (w : Session) :
  written (step e w) = written w \/
  exists h rnd c p,
    e = Clicked h rnd /\ handle h rnd (page w) = (c, Some p) /\
    written (step e w) = p :: written w.
Proof.
  destruct e; cbn [step].
  - left. destruct (setup w); reflexivity.
  - left. destruct (setup w); try reflexivity.
    destruct (setup_fetched now r (page w)); reflexivity.
  - left. destruct (timers w); reflexivity.
  - destruct (handle h rnd (page w)) as [c [p|]] eqn:Eh.
    + right. exists h, rnd, c, p. repeat split; reflexivity || assumption.
    + left. reflexivity.
  - left. destruct (nth_error (inflight w) k); reflexivity.
  - left. destruct (channelRef (page w)); reflexivity.
  - left. reflexivity.
  - left. destruct (channelRef (page w)); reflexivity.
  - left. destruct (channelRef (page w)); reflexivity.
Qed.

Lemma updated_keeps_invariant (p : Patch) (d : PublicData) :
  patch_invariant p -> record_invariant (updated p d).
Proof. intros H. exact H. Qed.

Lemma run_snoc (es : list Event) (e : Event) (w : Session) :
  run (es ++ [e]) w = step e (run es w).
Proof. unfold run. rewrite fold_left_app. reflexivity. Qed.

Lemma run_written_invariant (es : list Event) (w : Session) :
  Forall patch_invariant (written w) ->
  Forall patch_invariant (written (run es w)).
Proof.
  revert w. induction es as [|e es IH]; intros w Hw; [exact Hw|].
  cbn [run fold_left]. apply IH.
  destruct (step_written e w) as [-> | (h & rnd & c & p & _ & Hh & ->)];
    [exact Hw|].
  constructor; [|exact Hw]. eapply handle_patch_invariant; eassumption.
Qed.

End AdminFacts.

(* ================================================================== *)
(** * The transitions *)
(* ================================================================== *)

Section Transitions.

Import Supabase Admin.

(** C1. Every update an admin handler sends to the store keeps the record
    invariant, [winner != null] exactly when [state = DRAWN]:
    [handleStartDraw] sends [{DRAWING, null}], [handleResetRaffle] sends
    [{WAITING, null}], [handlePickWinner] sends [{DRAWN, w}] with [w] not
    null; and so does every update sent in the course of a session. *)
Theorem handler_writes_keep_invariant :
  (forall h rnd c,
      match snd (handle h rnd c) with
      | None => True
      | Some p =>
          patch_invariant p /\
          match h with
          | StartDraw => p = {| patch_state := DRAWING; patch_winner := None |}
          | ResetRaffle => p = {| patch_state := WAITING; patch_winner := None |}
          | PickWinner =>
              exists w, w <> EmptyString /\
                        p = {| patch_state := DRAWN; patch_winner := Some w |}
          end
      end) /\
  (forall es, Forall patch_invariant (written (run es initialSession))).
Proof.
  split.
  - intros h rnd c. destruct (handle h rnd c) as [c' [p|]] eqn:Eh; cbn [snd];
      [|exact I].
    split.
    + eapply handle_patch_invariant; eassumption.
    + eapply handle_patch_shape; eassumption.
  - intros es. apply run_written_invariant. constructor.
Qed.

(** C2, as amended.  [start_draw] invoked while the page shows
    [DRAWING], [DRAWN] or [ERROR] is rejected: nothing is written and
    nothing changes.  Invoked while it shows [WAITING] and [isLoading] is
    false, it writes exactly [{state: DRAWING, winner: null}]. *)
Theorem start_draw_guard (w : Session) (rnd : Number.double) :
  (currentState (page w) = DRAWING \/ currentState (page w) = DRAWN \/
   currentState (page w) = ERROR ->
   step (Clicked StartDraw rnd) w = w) /\
  (currentState (page w) = WAITING -> isLoading (page w) = false ->
   written (step (Clicked StartDraw rnd) w)
     = {| patch_state := DRAWING; patch_winner := None |} :: written w /\
   inflight (step (Clicked StartDraw rnd) w) = inflight w ++ [StartDraw]).
Proof.
  split.
  - intros Hs. cbn [step handle].
    rewrite handleStartDraw_rejects.
    + apply with_page_same.
    + right. destruct Hs as [-> | [-> | ->]]; discriminate.
  - intros Hs Hl. cbn [step handle].
    rewrite handleStartDraw_writes by assumption. split; reflexivity.
Qed.

(** C3, as amended.  [pick_winner] invoked while the page does not show
    [DRAWING], or while the derived [userList] is empty, is rejected:
    nothing is written and nothing changes.  Invoked while it shows
    [DRAWING] with no request in flight and a non-empty [userList], it
    selects an identifier of that list and, when the identifier is not
    the empty string, writes [{state: DRAWN, winner: <selected id>}]. *)
Theorem pick_winner_guard (w : Session) (rnd : Number.double) :
  Number.is_random rnd = true ->
  Z.of_nat (List.length (userList (page w))) <= MAX_ARRAY_LENGTH ->
  (currentState (page w) <> DRAWING \/ userList (page w) = [] ->
   step (Clicked PickWinner rnd) w = w) /\
  (currentState (page w) = DRAWING -> userList (page w) <> [] ->
   isLoading (page w) = false ->
   exists winnerId,
     pickRandomElement rnd (js_elems (userList (page w))) = Some winnerId /\
     In winnerId (userList (page w)) /\
     (winnerId <> EmptyString ->
      written (step (Clicked PickWinner rnd) w)
        = {| patch_state := DRAWN; patch_winner := Some winnerId |}
          :: written w)).
Proof.
  intros Hr Hlen. split.
  - intros Hs. cbn [step handle].
    rewrite handlePickWinner_rejects.
    + apply with_page_same.
    + right. exact Hs.
  - intros Hs Hne Hl.
    destruct (handlePickWinner_picks rnd (page w) Hl Hs Hne Hr Hlen)
      as (winnerId & Hpick & Hin & Hh).
    exists winnerId. split; [exact Hpick|]. split; [exact Hin|].
    intros Hw. cbn [step handle]. rewrite Hh.
    destruct (String.eqb_spec winnerId EmptyString); [contradiction|reflexivity].
Qed.

(** The emptiness check and the pick of one [handlePickWinner]
    invocation use the same captured [userList]: once the guard has
    passed, the pick returns an identifier of that list whatever the
    bus's presence state has become in the meantime; the handler reads
    nothing from it.  The "no users connected" branch is taken exactly
    when the identifier picked is the empty string. *)
Theorem pick_uses_captured_snapshot
    (w : Session) (rnd : Number.double) (live : RealtimePresenceState) :
  Number.is_random rnd = true ->
  Z.of_nat (List.length (userList (page w))) <= MAX_ARRAY_LENGTH ->
  isLoading (page w) = false ->
  currentState (page w) = DRAWING ->
  userList (page w) <> [] ->
  let w' := step (Clicked PickWinner rnd) (with_presence live w) in
  exists winnerId,
    pickRandomElement rnd (js_elems (userList (page w))) = Some winnerId /\
    In winnerId (userList (page w)) /\
    (winnerId <> EmptyString ->
     written w' = {| patch_state := DRAWN; patch_winner := Some winnerId |}
                  :: written w /\
     error (page w') = None) /\
    (winnerId = EmptyString ->
     written w' = written w /\
     error (page w') = Some "No users connected to pick a winner from.") /\
    page w' = page (step (Clicked PickWinner rnd) w).
Proof.
  intros Hr Hlen Hl Hs Hne w'.
  destruct (handlePickWinner_picks rnd (page w) Hl Hs Hne Hr Hlen)
    as (winnerId & Hpick & Hin & Hh).
  exists winnerId. split; [exact Hpick|]. split; [exact Hin|].
  subst w'. cbn [step handle with_presence page written]. rewrite Hh.
  destruct (String.eqb_spec winnerId EmptyString) as [He | He].
  - split; [intros Hc; contradiction|]. split; [|reflexivity].
    intros _. split; reflexivity.
  - split; [|split; [intros Hc; contradiction|reflexivity]].
    intros _. split; reflexivity.
Qed.

(** C6, as amended.  [reset] invoked while [isLoading] is false writes
    exactly [{state: WAITING, winner: null}], whichever of the four
    states the page shows. *)
Theorem reset_writes_waiting (w : Session) (rnd : Number.double) :
  isLoading (page w) = false ->
  (currentState (page w) = WAITING \/ currentState (page w) = DRAWING \/
   currentState (page w) = DRAWN \/ currentState (page w) = ERROR) /\
  written (step (Clicked ResetRaffle rnd) w)
    = {| patch_state := WAITING; patch_winner := None |} :: written w /\
  inflight (step (Clicked ResetRaffle rnd) w) = inflight w ++ [ResetRaffle].
Proof.
  intros Hl. split.
  - destruct (currentState (page w)); auto.
  - cbn [step handle]. rewrite handleResetRaffle_writes by assumption.
    split; reflexivity.
Qed.

End Transitions.

Section TransitionExamples.

Import Supabase Admin Samples.

Lemma pick_winner_guard_witness :
  written (step (Clicked PickWinner almostOne) drawingSession)
    = [{| patch_state := DRAWN; patch_winner := Some "c" |}].
Proof.
  destruct (pick_winner_guard drawingSession almostOne) as [_ H].
  - reflexivity.
  - vm_compute. discriminate.
  - destruct H as (winnerId & Hpick & _ & Hw).
    + reflexivity.
    + discriminate.
    + reflexivity.
    + vm_compute in Hpick. injection Hpick as <-. apply Hw. discriminate.
Defined.

(** C3, as stated, fails on the code: the page shows [DRAWING] and the
    snapshot is not empty, yet nothing is written, once because a request
    is in flight and once because the identifier picked is the empty
    string. *)
Lemma pick_winner_writes_nothing :
  (currentState (page resettingSession) = DRAWING /\
   userList (page resettingSession) = ["a"] /\
   isLoading (page resettingSession) = true /\
   step (Clicked PickWinner almostOne) resettingSession = resettingSession) /\
  (currentState (page unnamedSession) = DRAWING /\
   userList (page unnamedSession) = [EmptyString] /\
   isLoading (page unnamedSession) = false /\
   written (step (Clicked PickWinner almostOne) unnamedSession) = []).
Proof. repeat split. Qed.

Lemma pick_uses_captured_snapshot_witness :
  exists winnerId,
    pickRandomElement almostOne (js_elems ["a"; "b"; "c"]) = Some winnerId /\
    In winnerId ["a"; "b"; "c"] /\
    written (step (Clicked PickWinner almostOne)
               (with_presence [] drawingSession))
      = [{| patch_state := DRAWN; patch_winner := Some winnerId |}].
Proof.
  destruct (pick_uses_captured_snapshot drawingSession almostOne [])
    as (winnerId & Hpick & Hin & Hw & _).
  - reflexivity.
  - vm_compute. discriminate.
  - reflexivity.
  - reflexivity.
  - discriminate.
  - exists winnerId. split; [exact Hpick|]. split; [exact Hin|].
    apply Hw. vm_compute in Hpick. injection Hpick as <-. discriminate.
Defined.

(** C4. The claim fails on the code.  The guard has passed on a list of
    one identifier and the pick returns that identifier of the captured
    list; being the empty string it is taken by [!winnerId] for the
    [undefined] of an empty array, and the handler reports "No users
    connected to pick a winner from." and writes nothing. *)
Lemma error_branch_reached_past_guard :
  isLoading (page unnamedSession) = false /\
  currentState (page unnamedSession) = DRAWING /\
  List.length (userList (page unnamedSession)) = 1%nat /\
  pickRandomElement almostOne (js_elems (userList (page unnamedSession)))
    = Some EmptyString /\
  error (page (step (Clicked PickWinner almostOne) unnamedSession))
    = Some "No users connected to pick a winner from." /\
  written (step (Clicked PickWinner almostOne) unnamedSession) = [].
Proof. repeat split. Qed.

(** C2, as stated, fails on the code: the initial fetch has returned a
    [WAITING] record and no request is in flight, but [isLoading] stays
    set until setup's timer fires, and [start_draw] writes nothing. *)
Lemma start_draw_blocked_while_loading :
  currentState (page (MoreSamples.justFetched WAITING)) = WAITING /\
  inflight (MoreSamples.justFetched WAITING) = [] /\
  isLoading (page (MoreSamples.justFetched WAITING)) = true /\
  step (Clicked StartDraw almostOne) (MoreSamples.justFetched WAITING)
    = MoreSamples.justFetched WAITING /\
  written (step (Clicked StartDraw almostOne) (MoreSamples.justFetched WAITING))
    = [].
Proof. repeat split. Qed.

(** C6, as stated, fails on the code: the initial fetch has returned a
    [DRAWN] record and no request is in flight, but [isLoading] stays set
    until setup's timer fires, and [reset] writes nothing. *)
Lemma reset_blocked_while_loading :
  currentState (page (MoreSamples.justFetched DRAWN)) = DRAWN /\
  inflight (MoreSamples.justFetched DRAWN) = [] /\
  isLoading (page (MoreSamples.justFetched DRAWN)) = true /\
  step (Clicked ResetRaffle almostOne) (MoreSamples.justFetched DRAWN)
    = MoreSamples.justFetched DRAWN /\
  written (step (Clicked ResetRaffle almostOne) (MoreSamples.justFetched DRAWN))
    = [].
Proof. repeat split. Qed.

Lemma reset_writes_waiting_witness :
  written (step (Clicked ResetRaffle almostOne) drawingSession)
    = [{| patch_state := WAITING; patch_winner := None |}].
Proof.
  apply (reset_writes_waiting drawingSession almostOne). reflexivity.
Defined.

End TransitionExamples.

(* ================================================================== *)
(** * Setup, change events and requests in flight *)
(* ================================================================== *)

Section Synchronizer.

Import Supabase Admin Samples.

(** Without a channel no listener is registered: what the bus emits
    reaches neither the page nor the store. *)
Lemma bus_event_without_channel (e : Event) (w : Session) :
  channelRef (page w) = None -> from_bus e = true ->
  page (step e w) = page w /\ written (step e w) = written w /\
  inflight (step e w) = inflight w.
Proof.
  intros Hc He. destruct e; try discriminate; cbn [step];
    try rewrite Hc; repeat split; reflexivity.
Qed.

Lemma bus_events_without_channel (es : list Event) (w : Session) :
  channelRef (page w) = None ->
  Forall (fun e => from_bus e = true) es ->
  page (run es w) = page w /\ written (run es w) = written w /\
  inflight (run es w) = inflight w.
Proof.
  revert w. induction es as [|e es IH]; intros w Hc Hes.
  - repeat split; reflexivity.
  - inversion Hes as [|? ? He Hes']; subst.
    destruct (bus_event_without_channel e w Hc He) as (Hp & Hw & Hi).
    cbn [run fold_left].
    destruct (IH (step e w)) as (Hp' & Hw' & Hi'); [congruence|assumption|].
    unfold run in *. rewrite Hp', Hw', Hi'. repeat split; assumption.
Qed.

(** C7, as amended.  When the initial fetch fails, the page shows a local
    [ERROR] placeholder and an error message, nothing is written to the
    shared record, and setup returns before the channel is created: no
    listener is registered, and whatever the bus emits afterwards leaves
    the page as it is. *)
Theorem failed_fetch_stops_setup
    (now : string) (r : FetchResult) (es : list Event) :
  (forall d, r <> FetchData d) ->
  Forall (fun e => from_bus e = true) es ->
  let w := run [Mounted; Fetched now r] initialSession in
  raffleData (page w) = Some (errorPlaceholder now) /\
  error (page w) <> None /\
  written w = [] /\ inflight w = [] /\
  channelRef (page w) = None /\
  page (run es w) = page w /\
  written (run es w) = [].
Proof.
  intros Hr Hes w.
  assert (Hw : raffleData (page w) = Some (errorPlaceholder now) /\
               error (page w) <> None /\ written w = [] /\ inflight w = [] /\
               channelRef (page w) = None).
  { subst w. destruct r as [d | message |].
    - contradiction (Hr d). reflexivity.
    - cbn. repeat split; discriminate.
    - cbn. repeat split; discriminate. }
  destruct Hw as (Hd & He & Hwr & Hin & Hc).
  destruct (bus_events_without_channel es w Hc Hes) as (Hp & Hw' & _).
  repeat split; try assumption. rewrite Hw'. exact Hwr.
Qed.

Lemma failed_fetch_stops_setup_witness :
  page (run [Changed now UPDATE (recordIn WAITING None); PresenceSynced]
          (run failedSetup initialSession))
    = page (run failedSetup initialSession).
Proof.
  apply (failed_fetch_stops_setup now (FetchError (Some "Failed to fetch"))
           [Changed now UPDATE (recordIn WAITING None); PresenceSynced]).
  - discriminate.
  - repeat constructor.
Defined.

(** C7, as stated, fails on the code: after a failed initial fetch the
    store's record changes to [WAITING] and the change is delivered, but
    the page still shows the [ERROR] placeholder. *)
Lemma change_event_lost_after_failed_fetch :
  raffleData
    (page (run (failedSetup ++ [Changed now UPDATE (recordIn WAITING None)])
             initialSession))
    = Some (errorPlaceholder now) /\
  currentState
    (page (run (failedSetup ++ [Changed now UPDATE (recordIn WAITING None)])
             initialSession))
    <> state (recordIn WAITING None).
Proof. split; [reflexivity|discriminate]. Qed.

(** When setup succeeds the same event is applied. *)
Lemma change_event_applied_after_fetch (d new : PublicData) (now' : string) :
  raffleData
    (page (run [Mounted; Fetched now' (FetchData d); Changed now' UPDATE new]
             initialSession))
    = Some new.
Proof. reflexivity. Qed.

(** C8. A delivered change event replaces both local fields with the
    payload's: delivering [{state: DRAWN, winner: "p42"}] to a view at
    [{state: DRAWING, winner: null}] renders exactly that pair, and no
    rendered view has [state = DRAWN] with [winner = null].  The admin
    page stores the delivered record whole. *)
Theorem change_event_applied_wholesale :
  (forall v new,
      Client.rendered v (Client.on_postgres_changes new)
        = [{| Client.state := state new; Client.winner := winner new |}]) /\
  Client.rendered {| Client.state := DRAWING; Client.winner := None |}
      (Client.on_postgres_changes (recordIn DRAWN (Some "p42")))
    = [{| Client.state := DRAWN; Client.winner := Some "p42" |}] /\
  Forall (fun v => ~ (Client.state v = DRAWN /\ Client.winner v = None))
    (Client.rendered {| Client.state := DRAWING; Client.winner := None |}
       (Client.on_postgres_changes (recordIn DRAWN (Some "p42")))) /\
  (forall now' eventType new c,
      eventType <> DELETE ->
      raffleData (on_postgres_changes now' eventType new c) = Some new).
Proof.
  split; [|split; [|split]].
  - intros v new. reflexivity.
  - reflexivity.
  - cbn. constructor; [|constructor]. cbn. intros [_ H]. discriminate.
  - intros now' eventType new c He.
    destruct eventType; [reflexivity|reflexivity|contradiction He; reflexivity].
Qed.

(** ** Requests in flight *)




(** C9. The claim fails on the code.  After a failed initial fetch the
    admin resets; the timer that setup left behind then clears
    [isLoading] while that update is still awaiting its response, and a
    second reset passes the guard: two updates are in flight at once. *)
Theorem timer_reopens_guard_during_write :
  let first :=
    run (failedSetup ++ [Clicked ResetRaffle almostOne]) initialSession in
  let fired := step TimerFired first in
  let second := step (Clicked ResetRaffle almostOne) fired in
  inflight first = [ResetRaffle] /\ isLoading (page first) = true /\
  inflight fired = [ResetRaffle] /\ isLoading (page fired) = false /\
  inflight second = [ResetRaffle; ResetRaffle] /\
  written second
    = [{| patch_state := WAITING; patch_winner := None |};
       {| patch_state := WAITING; patch_winner := None |}] /\
  ~ single_flight second.
Proof. cbn. repeat split. intros H. exact H. Qed.

End Synchronizer.

(* ================================================================== *)
(** * The helpers of the spectator page *)
(* ================================================================== *)

Section UtilitiesFacts.

Import Supabase Utilities.

Lemma floorOfScaled_in_range (rnd : Number.double) (n : nat) :
  Number.is_random rnd = true ->
  0 < Z.of_nat n < 2 ^ 53 ->
  exists z, floorOfScaled rnd n = Some z /\ 0 <= z < Z.of_nat n.
Proof. intros Hr Hn. apply random_index_in_range; assumption. Qed.

(** X1. Whatever [Math.random()] returns, [getRandomColor] yields an
    [hsl(...)] string whose hue is in [0, 360), whose saturation is in
    [70, 100) and whose lightness is in [50, 70). *)
Theorem getRandomColor_in_gamut (r1 r2 r3 : Number.double) :
  Number.is_random r1 = true ->
  Number.is_random r2 = true ->
  Number.is_random r3 = true ->
  exists hue saturation lightness,
    getRandomColor r1 r2 r3
      = Some (String.append "hsl("
               (String.append (decimal hue)
                 (String.append ", "
                   (String.append (decimal saturation)
                     (String.append "%, "
                       (String.append (decimal lightness) "%)")))))) /\
    0 <= hue < 360 /\ 70 <= saturation < 100 /\ 50 <= lightness < 70.
Proof.
  intros H1 H2 H3.
  destruct (floorOfScaled_in_range r1 360 H1) as (h & Eh & Hh);
    [split; [cbn; lia | reflexivity]|].
  destruct (floorOfScaled_in_range r2 30 H2) as (s & Es & Hs);
    [split; [cbn; lia | reflexivity]|].
  destruct (floorOfScaled_in_range r3 20 H3) as (l & El & Hl);
    [split; [cbn; lia | reflexivity]|].
  exists h, (s + 70), (l + 50).
  unfold getRandomColor. rewrite Eh, Es, El. cbv zeta.
  split; [reflexivity|].
  change (Z.of_nat 360) with 360 in Hh.
  change (Z.of_nat 30) with 30 in Hs.
  change (Z.of_nat 20) with 20 in Hl. lia.
Qed.

Lemma getRandomColor_in_gamut_witness :
  exists hue saturation lightness,
    getRandomColor Samples.almostOne (S754_zero false) Samples.almostOne
      = Some (String.append "hsl("
               (String.append (decimal hue)
                 (String.append ", "
                   (String.append (decimal saturation)
                     (String.append "%, "
                       (String.append (decimal lightness) "%)")))))) /\
    0 <= hue < 360 /\ 70 <= saturation < 100 /\ 50 <= lightness < 70.
Proof.
  apply (getRandomColor_in_gamut Samples.almostOne (S754_zero false)
           Samples.almostOne); reflexivity.
Defined.

Example getRandomColor_extremes :
  getRandomColor Samples.almostOne (S754_zero false) Samples.almostOne
    = Some "hsl(359, 70%, 69%)".
Proof. reflexivity. Qed.

End UtilitiesFacts.

Section IdentifierFacts.

Import Supabase Utilities.

Lemma string_of_uint_no_underscore (d : Decimal.uint) :
  Forall (fun c => c <> "_"%char)
    (list_ascii_of_string (NilEmpty.string_of_uint d)).
Proof.
  induction d; cbn [NilEmpty.string_of_uint list_ascii_of_string];
    constructor; try assumption; discriminate.
Qed.

Lemma decimal_no_underscore (z : Z) :
  Forall (fun c => c <> "_"%char) (list_ascii_of_string (decimal z)).
Proof.
  unfold decimal.
  assert (Hu : forall d, Forall (fun c => c <> "_"%char)
                           (list_ascii_of_string (NilZero.string_of_uint d))).
  { intros d. destruct d; try apply string_of_uint_no_underscore.
    cbn. constructor; [discriminate|constructor]. }
  destruct (Z.to_int z) as [d | d]; cbn [NilZero.string_of_int].
  - apply Hu.
  - cbn [list_ascii_of_string]. constructor; [discriminate|apply Hu].
Qed.

Lemma decimal_inj (z1 z2 : Z) : decimal z1 = decimal z2 -> z1 = z2.
Proof.
  unfold decimal. intros H. apply DecimalZ.to_int_inj.
  assert (Hnn : forall z, Z.to_int z <> Decimal.Pos Decimal.Nil /\
                          Z.to_int z <> Decimal.Neg Decimal.Nil).
  { intros [|p|p]; cbn; split; try discriminate;
      intros E; injection E as E; exact (DecimalPos.Unsigned.to_uint_nonnil p E). }
  destruct (Hnn z1) as [Ha Hb]. destruct (Hnn z2) as [Hc Hd].
  pose proof (NilZero.isi (Z.to_int z1) Ha Hb) as H1.
  pose proof (NilZero.isi (Z.to_int z2) Hc Hd) as H2.
  rewrite H in H1. rewrite H1 in H2. injection H2 as H2. exact H2.
Qed.

(** A separator that occurs in neither prefix splits in one way only. *)
Lemma append_separator_inj (a b s1 s2 : string) :
  Forall (fun c => c <> "_"%char) (list_ascii_of_string a) ->
  Forall (fun c => c <> "_"%char) (list_ascii_of_string b) ->
  String.append a (String "_" s1) = String.append b (String "_" s2) ->
  a = b /\ s1 = s2.
Proof.
  revert b. induction a as [|c a IH]; intros [|c' b] Ha Hb H; cbn in *.
  - injection H as H. split; [reflexivity|assumption].
  - injection H as Hc _. inversion Hb; subst. congruence.
  - injection H as Hc _. inversion Ha; subst. congruence.
  - injection H as Hc H. inversion Ha; inversion Hb; subst.
    destruct (IH b) as [-> ->]; try assumption. split; reflexivity.
Qed.

Lemma generateUniqueUserId_shape (dateNow : Z) (base36 : string) :
  generateUniqueUserId dateNow base36
    = String "u" (String "s" (String "e" (String "r" (String "_"
        (String.append (decimal dateNow)
           (String "_" (substring 2 7 base36))))))).
Proof. reflexivity. Qed.

(** An identifier this repository's clients generate is truthy. *)
Lemma generated_truthy (u : string) : generated u -> falsy (Some u) = false.
Proof.
  intros (dateNow & base36 & ->). rewrite generateUniqueUserId_shape.
  reflexivity.
Qed.

(** X2. Two identifiers made by [generateUniqueUserId] are equal exactly
    when [Date.now()] returned the same millisecond and the seven
    characters kept of [Math.random().toString(36)] are the same; every
    identifier starts with [user_] and is not the empty string. *)
Theorem generateUniqueUserId_collides_iff
    (dateNow1 dateNow2 : Z) (base36a base36b : string) :
  (generateUniqueUserId dateNow1 base36a = generateUniqueUserId dateNow2 base36b
   <-> dateNow1 = dateNow2 /\ substring 2 7 base36a = substring 2 7 base36b) /\
  String.prefix "user_" (generateUniqueUserId dateNow1 base36a) = true /\
  generateUniqueUserId dateNow1 base36a <> EmptyString.
Proof.
  split; [split|split].
  - rewrite !generateUniqueUserId_shape. intros H.
    injection H as H.
    apply append_separator_inj in H; try apply decimal_no_underscore.
    destruct H as [Hd Hs]. split; [apply decimal_inj; exact Hd|exact Hs].
  - intros [-> Hs]. unfold generateUniqueUserId. rewrite Hs. reflexivity.
  - apply String.prefix_correct. rewrite generateUniqueUserId_shape.
    destruct (String.append (decimal dateNow1) _); reflexivity.
  - rewrite generateUniqueUserId_shape. discriminate.
Qed.

End IdentifierFacts.

(* ================================================================== *)
(** * The admin page: buttons, failures and what a session preserves *)
(* ================================================================== *)

Section AdminViewFacts.

Import Supabase Admin AdminView Utilities.

(** ** What the handlers leave alone *)

Lemma handle_frame (h : Handler) (rnd : Number.double) (c : AdminPage) :
  raffleData (fst (handle h rnd c)) = raffleData c /\
  connectedUsers (fst (handle h rnd c)) = connectedUsers c /\
  channelRef (fst (handle h rnd c)) = channelRef c.
Proof.
  destruct h; cbn [handle].
  - unfold handleStartDraw.
    destruct (isLoading c || negb (State_eqb (currentState c) WAITING));
      repeat split.
  - unfold handlePickWinner. cbv zeta.
    destruct (isLoading c || negb (State_eqb (currentState c) DRAWING)
              || Nat.eqb (List.length (userList c)) 0); [repeat split|].
    destruct (falsy _); repeat split.
  - unfold handleResetRaffle. destruct (isLoading c); repeat split.
Qed.

Lemma resume_frame (h : Handler) (updateError : option (option string))
    (c : AdminPage) :
  raffleData (resume h updateError c) = raffleData c /\
  connectedUsers (resume h updateError c) = connectedUsers c /\
  channelRef (resume h updateError c) = channelRef c.
Proof. destruct updateError; repeat split. Qed.

Lemma on_status_frame (status : string) (c : AdminPage) :
  raffleData (on_status status c) = raffleData c /\
  connectedUsers (on_status status c) = connectedUsers c /\
  isLoading (on_status status c) = isLoading c /\
  channelRef (on_status status c) = channelRef c.
Proof.
  unfold on_status. destruct (String.prefix _ _); [repeat split|].
  destruct (String.eqb _ _); repeat split.
Qed.

(** The displayed record changes only when the store delivers one. *)
Lemma step_raffleData_frame (e : Event) (w : Session) :
  match e with
  | Fetched _ _ | Changed _ _ _ => False
  | _ => True
  end ->
  raffleData (page (step e w)) = raffleData (page w).
Proof.
  intros He. destruct e; try contradiction; cbn [step].
  - destruct (setup w); reflexivity.
  - destruct (timers w); reflexivity.
  - pose proof (handle_frame h rnd (page w)) as (Hr & _).
    destruct (handle h rnd (page w)) as [c [p|]]; exact Hr.
  - destruct (nth_error (inflight w) k); [|reflexivity].
    apply resume_frame.
  - reflexivity.
  - destruct (channelRef (page w)); reflexivity.
  - destruct (channelRef (page w)); [|reflexivity]. apply on_status_frame.
Qed.

(** The candidate list changes only on a presence sync. *)
Lemma step_connectedUsers_frame (e : Event) (w : Session) :
  match e with
  | PresenceSynced => False
  | _ => True
  end ->
  connectedUsers (page (step e w)) = connectedUsers (page w).
Proof.
  intros He. destruct e; try contradiction; cbn [step].
  - destruct (setup w); reflexivity.
  - destruct (setup w); try reflexivity.
    destruct r; reflexivity.
  - destruct (timers w); reflexivity.
  - pose proof (handle_frame h rnd (page w)) as (_ & Hc & _).
    destruct (handle h rnd (page w)) as [c [p|]]; exact Hc.
  - destruct (nth_error (inflight w) k); [|reflexivity].
    apply resume_frame.
  - destruct (channelRef (page w)); [|reflexivity].
    destruct eventType; reflexivity.
  - reflexivity.
  - destruct (channelRef (page w)); [|reflexivity]. apply on_status_frame.
Qed.



(** ** The record on display *)

Lemma run_cons (e : Event) (es : list Event) (w : Session) :
  run (e :: es) w = run es (step e w).
Proof. reflexivity. Qed.

Lemma displayed_invariant_step (e : Event) (w : Session) :
  Forall record_invariant (delivered [e]) ->
  match raffleData (page w) with
  | Some d => record_invariant d
  | None => True
  end ->
  match raffleData (page (step e w)) with
  | Some d => record_invariant d
  | None => True
  end.
Proof.
  intros Hd Hw.
  assert (Hplace : forall now', record_invariant (errorPlaceholder now')).
  { intros now'. unfold record_invariant; cbn.
    split; [intros H; contradiction H; reflexivity|discriminate]. }
  destruct e;
    try (rewrite step_raffleData_frame; [exact Hw|exact I]); cbn [step].
  - destruct (setup w); try exact Hw.
    destruct r as [d | message |]; cbn.
    + cbn [delivered] in Hd. inversion Hd; assumption.
    + apply Hplace.
    + apply Hplace.
  - destruct (channelRef (page w)); [|exact Hw].
    destruct eventType; cbn.
    + cbn [delivered] in Hd. inversion Hd; assumption.
    + cbn [delivered] in Hd. inversion Hd; assumption.
    + apply Hplace.
Qed.

Lemma delivered_cons (e : Event) (es : list Event) :
  delivered (e :: es) = delivered [e] ++ delivered es.
Proof.
  destruct e; try reflexivity. destruct r; reflexivity.
Qed.

(** X4. If every record the store delivers (on the initial fetch and in
    change events) has [winner != null] exactly when [state = DRAWN],
    then so has every record the admin page ever displays, its local
    [ERROR] placeholders included. *)
Theorem displayed_record_keeps_invariant (es : list Event) :
  Forall record_invariant (delivered es) ->
  match raffleData (page (run es initialSession)) with
  | Some d => record_invariant d
  | None => True
  end.
Proof.
  assert (Hgen : forall es w,
             Forall record_invariant (delivered es) ->
             match raffleData (page w) with
             | Some d => record_invariant d
             | None => True
             end ->
             match raffleData (page (run es w)) with
             | Some d => record_invariant d
             | None => True
             end).
  { clear es. induction es as [|e es IH]; intros w Hd Hw; [exact Hw|].
    rewrite run_cons. rewrite delivered_cons in Hd.
    apply Forall_app in Hd as [He Hes].
    apply IH; [exact Hes|]. apply displayed_invariant_step; assumption. }
  intros Hd. apply Hgen; [exact Hd|exact I].
Qed.

Lemma displayed_record_keeps_invariant_witness :
  match
    raffleData
      (page (run (Samples.attended DRAWING ["a"]
                  ++ [Changed Samples.now UPDATE
                        (Samples.recordIn DRAWN (Some "a"))])
               initialSession))
  with
  | Some d => record_invariant d
  | None => True
  end.
Proof.
  apply (displayed_record_keeps_invariant
           (Samples.attended DRAWING ["a"]
            ++ [Changed Samples.now UPDATE (Samples.recordIn DRAWN (Some "a"))])).
  repeat constructor; cbn; try discriminate;
    intros H; try discriminate; contradiction H; reflexivity.
Defined.

(** ** Winners come from the presence the bus announced *)

Lemma element_at_Some_In {T : Type} (l : list T) (i : option Z) (x : T) :
  element_at l i = Some x -> In x l.
Proof.
  destruct i as [z|]; cbn [element_at]; [|discriminate].
  destruct (z <? 0); [discriminate|]. apply nth_error_In.
Qed.

(** Whatever [pickRandomElement] returns is an element of its array. *)
Lemma pickRandomElement_Some_In {T : Type} (rnd : Number.double)
    (arr : js_array T) (x : T) :
  pickRandomElement rnd arr = Some x ->
  exists l, arr = js_elems l /\ In x l.
Proof.
  destruct arr as [|l]; cbn [pickRandomElement]; [discriminate|].
  destruct (Nat.eqb (List.length l) 0); [discriminate|]. cbv zeta.
  intros H. exists l. split; [reflexivity|].
  eapply element_at_Some_In; eassumption.
Qed.

Lemma handle_winner_in_userList (h : Handler) (rnd : Number.double)
    (c c' : AdminPage) (p : Patch) (u : string) :
  handle h rnd c = (c', Some p) -> patch_winner p = Some u ->
  In u (userList c).
Proof.
  destruct h; cbn [handle].
  - unfold handleStartDraw.
    destruct (isLoading c || negb (State_eqb (currentState c) WAITING));
      intros H; inversion H; subst; discriminate.
  - unfold handlePickWinner. cbv zeta.
    destruct (isLoading c || negb (State_eqb (currentState c) DRAWING)
              || Nat.eqb (List.length (userList c)) 0); [discriminate|].
    destruct (pickRandomElement rnd (js_elems (userList c))) as [x|] eqn:Ep;
      cbn [falsy]; [|discriminate].
    destruct (String.eqb x EmptyString); [discriminate|].
    intros H Hu; inversion H; subst. cbn in Hu. injection Hu as <-.
    apply pickRandomElement_Some_In in Ep as (l & El & Hin).
    injection El as <-. exact Hin.
  - unfold handleResetRaffle.
    destruct (isLoading c); intros H; inversion H; subst; discriminate.
Qed.

(** Every candidate and every winner so far was announced. *)
Lemma announced_invariant (es : list Event) :
  forall (w : Session) (A : list string),
    incl (userList (page w)) A ->
    incl (usersOf (presence w)) A ->
    (forall p u, In p (written w) -> patch_winner p = Some u -> In u A) ->
    incl (userList (page (run es w))) (A ++ announced es) /\
    incl (usersOf (presence (run es w))) (A ++ announced es) /\
    (forall p u, In p (written (run es w)) -> patch_winner p = Some u ->
                 In u (A ++ announced es)).
Proof.
  induction es as [|e es IH]; intros w A Hl Hp Hw.
  - cbn [announced run fold_left]. rewrite app_nil_r. repeat split; assumption.
  - rewrite run_cons.
    assert (Hstep :
      let A' := A ++ announced [e] in
      incl (userList (page (step e w))) A' /\
      incl (usersOf (presence (step e w))) A' /\
      (forall p u, In p (written (step e w)) -> patch_winner p = Some u ->
                   In u A')).
    { cbv zeta. destruct e;
        try (cbn [announced]; rewrite app_nil_r;
             split; [unfold userList; rewrite step_connectedUsers_frame by exact I;
                     exact Hl|]).
      - cbn [step]. destruct (setup w); repeat split; assumption.
      - cbn [step]. destruct (setup w); try (split; assumption).
        destruct (setup_fetched now r (page w)); split; assumption.
      - cbn [step]. destruct (timers w); split; assumption.
      - cbn [step].
        destruct (handle h rnd (page w)) as [c [p|]] eqn:Eh;
          cbn [presence written with_page]; split; try assumption.
        intros p' u [<- | Hin] Hu.
        + apply Hl. eapply handle_winner_in_userList; eassumption.
        + eapply Hw; eassumption.
      - cbn [step]. destruct (nth_error (inflight w) k); split; assumption.
      - cbn [step]. destruct (channelRef (page w)); split; assumption.
      - cbn [announced step with_presence page presence written].
        rewrite app_nil_r. split; [|split].
        + apply incl_appl. exact Hl.
        + apply incl_appr. apply incl_refl.
        + intros p u Hin Hu. apply in_or_app. left. eapply Hw; eassumption.
      - cbn [announced]. rewrite app_nil_r. cbn [step].
        destruct (channelRef (page w));
          cbn [with_page page presence written]; repeat split; assumption.
      - cbn [step]. destruct (channelRef (page w)); split; assumption. }
    cbv zeta in Hstep. destruct Hstep as (Hl' & Hp' & Hw').
    destruct (IH (step e w) (A ++ announced [e]) Hl' Hp' Hw') as (H1 & H2 & H3).
    assert (Hassoc : (A ++ announced [e]) ++ announced es
                     = A ++ announced (e :: es)).
    { rewrite <- app_assoc. f_equal.
      destruct e; try reflexivity. cbn [announced]. rewrite app_nil_r.
      reflexivity. }
    rewrite Hassoc in *. repeat split; assumption.
Qed.

(** X5. Every winner the admin page ever writes to the store is an
    identifier that the bus announced present at some point of the
    session. *)
Theorem winners_were_announced (es : list Event) (p : Patch) (u : string) :
  In p (written (run es initialSession)) ->
  patch_winner p = Some u ->
  In u (announced es).
Proof.
  intros Hin Hu.
  destruct (announced_invariant es initialSession []) as (_ & _ & H).
  - intros x Hx. exact Hx.
  - intros x Hx. exact Hx.
  - intros p' u' [].
  - exact (H p u Hin Hu).
Qed.

Lemma winners_were_announced_witness :
  In "c" (announced (Samples.attended DRAWING ["a"; "b"; "c"]
                     ++ [Clicked PickWinner Samples.almostOne])).
Proof.
  apply (winners_were_announced
           (Samples.attended DRAWING ["a"; "b"; "c"]
            ++ [Clicked PickWinner Samples.almostOne])
           {| patch_state := DRAWN; patch_winner := Some "c" |} "c").
  - vm_compute. left. reflexivity.
  - reflexivity.
Defined.

(** ** Requests in flight when setup succeeds *)






(** ** Buttons and guards *)

Lemma orb_false_split (a b : bool) : a || b = false -> a = false /\ b = false.
Proof. destruct a, b; intros H; try discriminate; split; reflexivity. Qed.

(** X7. A button that is enabled has a handler that passes its guard:
    clicking an enabled Start Draw sends [{DRAWING, null}], an enabled
    Reset sends [{WAITING, null}], an enabled Pick Winner sends
    [{DRAWN, id}] for the identifier [id] that [pickRandomElement]
    returns, one of the listed users, unless that identifier is the
    empty string; Start Draw and Pick Winner are never enabled
    together. *)
Theorem enabled_buttons_pass_guards (c : AdminPage) (rnd : Number.double) :
  Number.is_random rnd = true ->
  Z.of_nat (List.length (userList c)) <= MAX_ARRAY_LENGTH ->
  (startDisabled c = false ->
   handleStartDraw c
     = (setError None (setIsLoading true c),
        Some {| patch_state := DRAWING; patch_winner := None |})) /\
  (resetDisabled c = false ->
   handleResetRaffle c
     = (setError None (setIsLoading true c),
        Some {| patch_state := WAITING; patch_winner := None |})) /\
  (pickDisabled c = false ->
   exists winnerId,
     pickRandomElement rnd (js_elems (userList c)) = Some winnerId /\
     In winnerId (userList c) /\
     (winnerId <> EmptyString ->
      handlePickWinner rnd c
        = (setError None (setIsLoading true c),
           Some {| patch_state := DRAWN; patch_winner := Some winnerId |}))) /\
  (startDisabled c = false -> pickDisabled c = true).
Proof.
  intros Hr Hlen. split; [|split; [|split]].
  - unfold startDisabled. intros H.
    apply orb_false_split in H as [H _]. apply orb_false_split in H as [Hl Hs].
    apply negb_false_iff, State_eqb_eq in Hs.
    apply handleStartDraw_writes; assumption.
  - unfold resetDisabled. apply handleResetRaffle_writes.
  - unfold pickDisabled. intros H.
    apply orb_false_split in H as [H _]. apply orb_false_split in H as [H Hn].
    apply orb_false_split in H as [Hl Hs].
    apply negb_false_iff, State_eqb_eq in Hs.
    assert (Hne : userList c <> []).
    { intros E. rewrite E in Hn. discriminate. }
    destruct (handlePickWinner_picks rnd c Hl Hs Hne Hr Hlen)
      as (winnerId & Hpick & Hin & Hh).
    exists winnerId. split; [exact Hpick|]. split; [exact Hin|].
    intros Hw. rewrite Hh.
    destruct (String.eqb_spec winnerId EmptyString); [contradiction|reflexivity].
  - unfold startDisabled, pickDisabled. intros H.
    apply orb_false_split in H as [H _]. apply orb_false_split in H as [Hl Hs].
    apply negb_false_iff, State_eqb_eq in Hs. rewrite Hl, Hs. reflexivity.
Qed.

Lemma enabled_buttons_pass_guards_witness :
  handleResetRaffle (page Samples.drawingSession)
    = (setError None (setIsLoading true (page Samples.drawingSession)),
       Some {| patch_state := WAITING; patch_winner := None |}).
Proof.
  apply (enabled_buttons_pass_guards (page Samples.drawingSession)
           Samples.almostOne).
  - reflexivity.
  - vm_compute. discriminate.
  - reflexivity.
Defined.

Lemma failure_message_truthy (h : Handler) (err : option string) :
  truthy (Some (String.append (failurePrefix h) (message_or_unknown err)))
    = true.
Proof. destruct h; reflexivity. Qed.

(** X8. When the store refuses an update, the handler's [catch] leaves
    an error message that disables Start Draw and Pick Winner, its
    [finally] clears [isLoading] so that Reset stays enabled, and the
    record on display is untouched. *)
Theorem failed_update_leaves_only_reset
    (h : Handler) (err : option string) (c : AdminPage) :
  let c' := resume h (Some err) c in
  error c'
    = Some (String.append (failurePrefix h) (message_or_unknown err)) /\
  startDisabled c' = true /\ pickDisabled c' = true /\
  resetDisabled c' = false /\
  raffleData c' = raffleData c /\ userList c' = userList c.
Proof.
  cbv zeta. unfold startDisabled, pickDisabled, resetDisabled, resume.
  cbn [error isLoading setIsLoading setError].
  rewrite failure_message_truthy, !orb_true_r.
  repeat split.
Qed.

(** ** Teardown *)

(** X9. The effect's cleanup hands the channel to [removeChannel] when
    there is one and clears [channelRef]; run again it releases nothing,
    and whatever the bus emits afterwards leaves the page as the cleanup
    left it. *)
Theorem cleanup_releases_channel_once (w : Session) (es : list Event) :
  Forall (fun e => from_bus e = true) es ->
  snd (cleanup (page w)) = channelRef (page w) /\
  channelRef (fst (cleanup (page w))) = None /\
  cleanup (fst (cleanup (page w))) = (fst (cleanup (page w)), None) /\
  page (run es (with_page (fst (cleanup (page w))) w))
    = fst (cleanup (page w)).
Proof.
  intros Hes.
  assert (Hc : channelRef (fst (cleanup (page w))) = None).
  { unfold cleanup. destruct (channelRef (page w)) eqn:E; [reflexivity|exact E]. }
  split; [|split; [exact Hc|split]].
  - unfold cleanup. destruct (channelRef (page w)); reflexivity.
  - unfold cleanup at 1. rewrite Hc. reflexivity.
  - destruct (bus_events_without_channel es
                (with_page (fst (cleanup (page w))) w)) as (Hp & _);
      [exact Hc|exact Hes|exact Hp].
Qed.

Lemma cleanup_releases_channel_once_witness :
  snd (cleanup (page Samples.drawingSession)) = Some RAFFLE_ROOM_CHANNEL /\
  page (run [Changed Samples.now UPDATE (Samples.recordIn WAITING None)]
          (with_page (fst (cleanup (page Samples.drawingSession)))
             Samples.drawingSession))
    = fst (cleanup (page Samples.drawingSession)).
Proof.
  destruct (cleanup_releases_channel_once Samples.drawingSession
              [Changed Samples.now UPDATE (Samples.recordIn WAITING None)])
    as (H1 & _ & _ & H4).
  - repeat constructor.
  - split; [exact H1|exact H4].
Defined.

(** ** A deleted record *)

(** X10. When the bus reports the raffle row deleted, the page shows the
    local [ERROR] placeholder and a message and writes nothing; from
    there Start Draw and Pick Winner return at their guards, and Reset,
    when [isLoading] is false, still sends [{WAITING, null}]. *)
Theorem deleted_record_leaves_only_reset
    (w : Session) (now' : string) (new : PublicData) (rnd : Number.double) :
  channelRef (page w) <> None ->
  let w' := step (Changed now' DELETE new) w in
  raffleData (page w') = Some (errorPlaceholder now') /\
  error (page w') = Some "Raffle data (ID: 1) was deleted." /\
  written w' = written w /\
  step (Clicked StartDraw rnd) w' = w' /\
  step (Clicked PickWinner rnd) w' = w' /\
  (isLoading (page w) = false ->
   written (step (Clicked ResetRaffle rnd) w')
     = {| patch_state := WAITING; patch_winner := None |} :: written w).
Proof.
  intros Hc w'. subst w'. cbn [step].
  destruct (channelRef (page w)) as [chan|]; [|contradiction Hc; reflexivity].
  cbn [on_postgres_changes].
  set (c' := setRaffleData _ _).
  assert (Hs : currentState c' = ERROR) by reflexivity.
  split; [reflexivity|]. split; [reflexivity|]. split; [reflexivity|].
  split; [|split].
  - cbn [step handle with_page page]. rewrite handleStartDraw_rejects.
    + reflexivity.
    + right. rewrite Hs. discriminate.
  - cbn [step handle with_page page]. rewrite handlePickWinner_rejects.
    + reflexivity.
    + right. left. rewrite Hs. discriminate.
  - intros Hl. cbn [step handle with_page page].
    rewrite handleResetRaffle_writes by exact Hl. reflexivity.
Qed.

Lemma deleted_record_leaves_only_reset_witness :
  written
    (step (Clicked ResetRaffle Samples.almostOne)
       (step (Changed Samples.now DELETE (Samples.recordIn DRAWING None))
          Samples.drawingSession))
    = [{| patch_state := WAITING; patch_winner := None |}].
Proof.
  apply (deleted_record_leaves_only_reset Samples.drawingSession Samples.now
           (Samples.recordIn DRAWING None) Samples.almostOne).
  - discriminate.
  - reflexivity.
Defined.

(** ** Clients of this repository *)

(** X11. When every identifier in the captured [userList] was made by
    [generateUniqueUserId], a [pick_winner] that passes its guard always
    writes [{DRAWN, id}] for one of them: the "no users connected"
    branch is not taken. *)
Theorem generated_identifiers_are_always_written
    (w : Session) (rnd : Number.double) :
  Number.is_random rnd = true ->
  Z.of_nat (List.length (userList (page w))) <= MAX_ARRAY_LENGTH ->
  isLoading (page w) = false ->
  currentState (page w) = DRAWING ->
  userList (page w) <> [] ->
  Forall generated (userList (page w)) ->
  exists winnerId,
    In winnerId (userList (page w)) /\
    written (step (Clicked PickWinner rnd) w)
      = {| patch_state := DRAWN; patch_winner := Some winnerId |}
        :: written w /\
    inflight (step (Clicked PickWinner rnd) w) = inflight w ++ [PickWinner] /\
    error (page (step (Clicked PickWinner rnd) w)) = None.
Proof.
  intros Hr Hlen Hl Hs Hne Hgen.
  destruct (handlePickWinner_picks rnd (page w) Hl Hs Hne Hr Hlen)
    as (winnerId & _ & Hin & Hh).
  exists winnerId. split; [exact Hin|].
  assert (Ht : String.eqb winnerId EmptyString = false).
  { rewrite Forall_forall in Hgen. exact (generated_truthy _ (Hgen _ Hin)). }
  rewrite Ht in Hh. cbn [step handle]. rewrite Hh. repeat split.
Qed.

(** ** A whole draw *)

(** X12. From a page that shows [WAITING] with nothing in flight: start
    is clicked and answered and the store's change comes back, pick is
    clicked and answered and its change comes back.  The store has then
    been sent [{DRAWING, null}] and [{DRAWN, id}] in that order, [id]
    being one of the users listed when the draw started; the page shows
    [DRAWN] with that winner, nothing is in flight and [isLoading] is
    cleared. *)
Theorem full_draw_cycle
    (w : Session) (d : PublicData) (rnd1 rnd2 : Number.double)
    (now1 now2 : string) :
  Number.is_random rnd2 = true ->
  Z.of_nat (List.length (userList (page w))) <= MAX_ARRAY_LENGTH ->
  raffleData (page w) = Some d -> state d = WAITING ->
  isLoading (page w) = false -> inflight w = [] ->
  channelRef (page w) <> None ->
  userList (page w) <> [] ->
  Forall (fun u => u <> EmptyString) (userList (page w)) ->
  let start := {| patch_state := DRAWING; patch_winner := None |} in
  let drawing :=
    run [Clicked StartDraw rnd1; Responded 0 None;
         Changed now1 UPDATE (updated start d)] w in
  exists winnerId,
    In winnerId (userList (page w)) /\
    let pick := {| patch_state := DRAWN; patch_winner := Some winnerId |} in
    let drawn :=
      run [Clicked PickWinner rnd2; Responded 0 None;
           Changed now2 UPDATE (updated pick (updated start d))] drawing in
    written drawn = pick :: start :: written w /\
    raffleData (page drawn) = Some (updated pick d) /\
    currentState (page drawn) = DRAWN /\
    currentWinner (page drawn) = Some winnerId /\
    inflight drawn = [] /\ isLoading (page drawn) = false /\
    error (page drawn) = None.
Proof.
  intros Hr Hlen Hd Hs Hl Hi Hc Hne Hids start drawing.
  destruct (channelRef (page w)) as [chan|] eqn:Ec; [|contradiction Hc; reflexivity].
  assert (Hcur : currentState (page w) = WAITING).
  { unfold currentState. rewrite Hd. exact Hs. }
  (* the page after the first three events *)
  assert (Hdrawing :
    drawing =
      {| page := setRaffleData (Some (updated start d))
                   (setError None
                      (setIsLoading false
                         (setError None (setIsLoading true (page w)))));
         setup := setup w; timers := timers w; inflight := [];
         written := start :: written w; presence := presence w |}).
  { subst drawing. cbn [run fold_left step handle].
    rewrite handleStartDraw_writes by assumption.
    rewrite Hi. cbn [app inflight nth_error page resume remove_at
                     channelRef setIsLoading setError]. rewrite Ec.
    reflexivity. }
  assert (Hul : userList (page drawing) = userList (page w)).
  { rewrite Hdrawing. reflexivity. }
  destruct (handlePickWinner_picks rnd2 (page drawing)) as (winnerId & _ & Hin & Hh).
  - rewrite Hdrawing. reflexivity.
  - rewrite Hdrawing. reflexivity.
  - rewrite Hul. exact Hne.
  - exact Hr.
  - rewrite Hul. exact Hlen.
  - rewrite Hul in Hin. exists winnerId. split; [exact Hin|].
    assert (Ht : String.eqb winnerId EmptyString = false).
    { rewrite Forall_forall in Hids. apply String.eqb_neq. exact (Hids _ Hin). }
    rewrite Ht in Hh. cbv zeta.
    cbn [run fold_left step handle]. rewrite Hh.
    rewrite Hdrawing.
    cbn [app inflight nth_error page resume remove_at channelRef
         setIsLoading setError setRaffleData written]. rewrite Ec.
    repeat split.
Qed.

End AdminViewFacts.

Section AdminViewExamples.

Import Supabase Admin AdminView Utilities.

Lemma someUser_generated : generated MoreSamples.someUser.
Proof. exists 1745466081000, "0.4fzyo82mvyr". reflexivity. Qed.

Lemma generated_identifiers_are_always_written_witness :
  exists winnerId,
    In winnerId [MoreSamples.someUser] /\
    written
      (step (Clicked PickWinner Samples.almostOne)
         (run (Samples.attended DRAWING [MoreSamples.someUser]) initialSession))
      = [{| patch_state := DRAWN; patch_winner := Some winnerId |}].
Proof.
  destruct (generated_identifiers_are_always_written
              (run (Samples.attended DRAWING [MoreSamples.someUser])
                 initialSession)
              Samples.almostOne)
    as (winnerId & Hin & Hw & _).
  - reflexivity.
  - vm_compute. discriminate.
  - reflexivity.
  - reflexivity.
  - discriminate.
  - constructor; [exact someUser_generated|constructor].
  - exists winnerId. split; [exact Hin|exact Hw].
Defined.

Lemma full_draw_cycle_witness :
  exists winnerId,
    In winnerId [MoreSamples.someUser] /\
    currentWinner
      (page
         (run [Clicked PickWinner Samples.almostOne; Responded 0 None;
               Changed Samples.now UPDATE
                 (updated {| patch_state := DRAWN;
                             patch_winner := Some winnerId |}
                    (updated {| patch_state := DRAWING; patch_winner := None |}
                       (Samples.recordIn WAITING None)))]
            (run [Clicked StartDraw Samples.almostOne; Responded 0 None;
                  Changed Samples.now UPDATE
                    (updated {| patch_state := DRAWING; patch_winner := None |}
                       (Samples.recordIn WAITING None))]
               MoreSamples.waitingSession)))
      = Some winnerId.
Proof.
  destruct (full_draw_cycle MoreSamples.waitingSession
              (Samples.recordIn WAITING None)
              Samples.almostOne Samples.almostOne Samples.now Samples.now)
    as (winnerId & Hin & _ & _ & _ & Hw & _).
  - reflexivity.
  - vm_compute. discriminate.
  - reflexivity.
  - reflexivity.
  - reflexivity.
  - reflexivity.
  - discriminate.
  - discriminate.
  - constructor; [discriminate|constructor].
  - exists winnerId. split; [exact Hin|exact Hw].
Defined.

End AdminViewExamples.

(* ================================================================== *)
(** * The spectator's tab *)
(* ================================================================== *)

Section HomePageFacts.

Import Supabase HomePage.

Lemma remove_only (h : nat) : List.remove Nat.eq_dec h [h] = [].
Proof. cbn. destruct (Nat.eq_dec h h); [reflexivity|contradiction]. Qed.

Lemma State_eqb_refl (s : State) : State_eqb s s = true.
Proof. destruct s; reflexivity. Qed.

(** Rendering after a callback that touched only the view re-establishes
    what the flashing effect maintains. *)
Lemma rerender_in_step (t t' : Tab) (colour : string) :
  flashing_in_step t ->
  isFlashing t' = isFlashing t ->
  flashIntervalRef t' = flashIntervalRef t ->
  intervals t' = intervals t ->
  nextHandle t' = nextHandle t ->
  bodyBackground t' = bodyBackground t ->
  flashing_in_step (rerender (Client.state (view t)) colour t').
Proof.
  intros (Hf & Hh & Hres) Ef Er Ei En Eb. unfold rerender.
  destruct (State_eqb (Client.state (view t)) (Client.state (view t'))) eqn:Es.
  - apply State_eqb_eq in Es. unfold flashing_in_step.
    rewrite Ef, Er, Ei, En, Eb, <- Es. repeat split; assumption.
  - destruct t as [v f u r c s i n b tr], t' as [v' f' u' r' c' s' i' n' b' tr'].
    cbn in Hf, Hh, Hres, Ef, Er, Ei, En, Eb, Es. subst f' r' i' n' b'.
    unfold flashCleanup, flashEffect, flashing_in_step.
    destruct (State_eqb (Client.state v) DRAWING) eqn:Ebefore.
    + (* it was flashing and the state has left DRAWING *)
      apply State_eqb_eq in Ebefore. rewrite Ebefore in Es.
      assert (Enow : State_eqb (Client.state v') DRAWING = false).
      { destruct (Client.state v'); try reflexivity; discriminate. }
      destruct Hres as (h & -> & ->).
      cbn. rewrite Enow. cbn. rewrite Enow.
      destruct (Nat.eq_dec h h); [|contradiction]. cbn.
      repeat split. intros h' Hc. discriminate.
    + destruct Hres as (-> & -> & ->).
      cbn. destruct (State_eqb (Client.state v') DRAWING) eqn:Enow.
      * (* it starts flashing *)
        cbn. rewrite Enow. split; [reflexivity|]. split.
        -- intros h Hs. injection Hs as <-. apply Nat.lt_succ_diag_r.
        -- eexists. split; reflexivity.
      * cbn. rewrite Enow. repeat split. intros h Hc. discriminate.
Qed.

Lemma mounted_in_step (userId background colour : string) :
  flashing_in_step (step (Mounted colour) (initialTab userId background)).
Proof.
  unfold flashing_in_step. cbn. repeat split. intros h Hc. discriminate.
Qed.

(** Rendering touches neither the view nor the subscription. *)
Lemma rerender_frame (before : State) (colour : string) (t : Tab) :
  view (rerender before colour t) = view t /\
  userId (rerender before colour t) = userId t /\
  channelRef (rerender before colour t) = channelRef t /\
  setup (rerender before colour t) = setup t /\
  tracked (rerender before colour t) = tracked t.
Proof.
  unfold rerender. destruct (State_eqb before _); [repeat split|].
  unfold flashEffect, flashCleanup.
  destruct t as [v f u r c s i n b tr]. cbn.
  destruct r as [h|]; cbn;
    destruct (State_eqb (Client.state v) DRAWING); cbn; repeat split.
Qed.

Lemma on_status_frame_tab (status now' : string) (t : Tab) :
  isFlashing (on_status status now' t) = isFlashing t /\
  flashIntervalRef (on_status status now' t) = flashIntervalRef t /\
  intervals (on_status status now' t) = intervals t /\
  nextHandle (on_status status now' t) = nextHandle t /\
  bodyBackground (on_status status now' t) = bodyBackground t /\
  userId (on_status status now' t) = userId t /\
  channelRef (on_status status now' t) = channelRef t /\
  setup (on_status status now' t) = setup t.
Proof.
  unfold on_status.
  destruct (String.eqb status "SUBSCRIBED"); [repeat split|].
  destruct (String.eqb status "CLOSED"); [repeat split|].
  destruct (String.prefix "CHANNEL_ERROR" status); repeat split.
Qed.

Lemma step_in_step (e : Event) (t : Tab) :
  setup t <> Admin.NotMounted ->
  flashing_in_step t ->
  flashing_in_step (step e t) /\ setup (step e t) <> Admin.NotMounted.
Proof.
  intros Hm Ht. destruct e; cbn [step].
  - destruct (setup t) eqn:Es; [contradiction Hm; reflexivity| |];
      (split; [exact Ht|rewrite Es; discriminate]).
  - destruct (setup t) eqn:Es; [contradiction Hm; reflexivity| |].
    + split.
      * apply rerender_in_step; try exact Ht; destruct r; reflexivity.
      * destruct (rerender_frame (Client.state (view t)) colour
                    (setSetup Admin.SetupReturned (setup_fetched r t)))
          as (_ & _ & _ & -> & _).
        discriminate.
    + split; [exact Ht|rewrite Es; discriminate].
  - destruct (channelRef t); [|split; assumption]. split.
    + apply rerender_in_step; try exact Ht; reflexivity.
    + destruct (rerender_frame (Client.state (view t)) colour
                  (on_postgres_changes new t)) as (_ & _ & _ & -> & _).
      exact Hm.
  - destruct (channelRef t); [|split; assumption].
    destruct (on_status_frame_tab status now t)
      as (H1 & H2 & H3 & H4 & H5 & _ & _ & H8).
    split.
    + apply rerender_in_step; assumption.
    + destruct (rerender_frame (Client.state (view t)) colour
                  (on_status status now t)) as (_ & _ & _ & -> & _).
      rewrite H8. exact Hm.
  - destruct (List.existsb (Nat.eqb h) (intervals t)) eqn:Ex;
      [|split; assumption].
    split; [|exact Hm].
    destruct Ht as (Hf & Hh & Hres). unfold flashing_in_step.
    cbn [setBodyBackground view isFlashing flashIntervalRef intervals
         nextHandle bodyBackground].
    split; [exact Hf|]. split; [exact Hh|].
    destruct (State_eqb (Client.state (view t)) DRAWING); [exact Hres|].
    destruct Hres as (_ & Hi & _). rewrite Hi in Ex. discriminate.
Qed.

Lemma tab_run_cons (e : Event) (es : list Event) (t : Tab) :
  run (e :: es) t = run es (step e t).
Proof. reflexivity. Qed.

Lemma run_in_step (es : list Event) (t : Tab) :
  setup t <> Admin.NotMounted ->
  flashing_in_step t ->
  flashing_in_step (run es t).
Proof.
  revert t. induction es as [|e es IH]; intros t Hm Ht; [exact Ht|].
  rewrite tab_run_cons. destruct (step_in_step e t Hm Ht) as [Ht' Hm'].
  apply IH; assumption.
Qed.

(** X13. Whatever a mounted spectator tab receives, it flashes exactly
    while it shows [DRAWING]: then one interval timer is scheduled and
    no more; otherwise none is scheduled and the page background is
    reset.  Unmounting leaves no timer behind. *)
Theorem flashing_follows_drawing
    (userId background colour : string) (es : list Event) :
  let t := run (Mounted colour :: es) (initialTab userId background) in
  (isFlashing t = true <-> Client.state (view t) = DRAWING) /\
  (Client.state (view t) = DRAWING -> exists h, intervals t = [h]) /\
  (Client.state (view t) <> DRAWING ->
   intervals t = [] /\ bodyBackground t = EmptyString) /\
  intervals (fst (unmount t)) = [] /\
  bodyBackground (fst (unmount t)) = EmptyString.
Proof.
  intros t.
  assert (Ht : flashing_in_step t).
  { subst t. rewrite tab_run_cons. apply run_in_step.
    - cbn. discriminate.
    - apply mounted_in_step. }
  destruct Ht as (Hf & _ & Hres).
  split; [|split; [|split; [|split]]].
  - rewrite Hf. apply State_eqb_eq.
  - intros Hd. apply State_eqb_eq in Hd. rewrite Hd in Hres.
    destruct Hres as (h & _ & Hi). exists h. exact Hi.
  - intros Hd. apply State_eqb_neq in Hd. rewrite Hd in Hres.
    destruct Hres as (_ & Hi & Hb). split; assumption.
  - clearbody t. destruct t as [v f u r c s i n b tr].
    cbn [view flashIntervalRef intervals] in Hres.
    unfold unmount, flashCleanup.
    destruct (State_eqb (Client.state v) DRAWING).
    + destruct Hres as (h & -> & ->).
      destruct c; cbn; destruct (Nat.eq_dec h h); try contradiction;
        reflexivity.
    + destruct Hres as (-> & -> & _). cbn. destruct c; reflexivity.
  - reflexivity.
Qed.

(** ** The subscription *)

Lemma flashEffect_frame (colour : string) (t : Tab) :
  view (flashEffect colour t) = view t /\
  userId (flashEffect colour t) = userId t /\
  channelRef (flashEffect colour t) = channelRef t /\
  setup (flashEffect colour t) = setup t /\
  tracked (flashEffect colour t) = tracked t.
Proof.
  unfold flashEffect. destruct t as [v f u r c s i n b tr]. cbn.
  destruct (State_eqb (Client.state v) DRAWING); cbn; [repeat split|].
  destruct r; repeat split.
Qed.

(** What a step does to the subscription: the view, the identifier, the
    channel, the setup phase and the payloads tracked. *)
Lemma step_subscription (e : Event) (t : Tab) :
  match e with
  | Mounted _ =>
      view (step e t) = view t /\ channelRef (step e t) = channelRef t /\
      tracked (step e t) = tracked t
  | Fetched r _ =>
      tracked (step e t) = tracked t /\
      (setup t <> Admin.AwaitingFetch ->
       view (step e t) = view t /\ channelRef (step e t) = channelRef t /\
       setup (step e t) = setup t)
  | Changed new _ =>
      tracked (step e t) = tracked t /\ channelRef (step e t) = channelRef t /\
      setup (step e t) = setup t /\
      (channelRef t = None -> view (step e t) = view t)
  | StatusChanged status now' _ =>
      channelRef (step e t) = channelRef t /\ setup (step e t) = setup t /\
      (channelRef t = None ->
       view (step e t) = view t /\ tracked (step e t) = tracked t) /\
      (tracked (step e t) = tracked t \/
       channelRef t <> None /\
       tracked (step e t)
         = {| user := userId t; online_at := now' |} :: tracked t)
  | Ticked _ _ =>
      view (step e t) = view t /\ channelRef (step e t) = channelRef t /\
      setup (step e t) = setup t /\ tracked (step e t) = tracked t
  end /\
  userId (step e t) = userId t.
Proof.
  destruct e; cbn [step].
  - destruct (setup t); try (repeat split; reflexivity).
    destruct (flashEffect_frame colour t) as (Hv & Hu & Hc & _ & Ht).
    cbn [setSetup view channelRef tracked userId]. auto.
  - destruct (setup t) eqn:Es.
    + repeat split; auto.
    + destruct (rerender_frame (Client.state (view t)) colour
                  (setSetup Admin.SetupReturned (setup_fetched r t)))
        as (Hv & Hu & Hc & Hs & Ht).
      rewrite Hu, Ht. split; [split|].
      * destruct r; reflexivity.
      * intros Hc'. contradiction Hc'. reflexivity.
      * destruct r; reflexivity.
    + repeat split; auto.
  - destruct (channelRef t) as [chan|] eqn:Ec; [|repeat split; auto].
    destruct (rerender_frame (Client.state (view t)) colour
                (on_postgres_changes new t)) as (Hv & Hu & Hc & Hs & Ht).
    rewrite Hu, Hc, Hs, Ht. cbn. repeat split; auto; discriminate.
  - destruct (channelRef t) as [chan|] eqn:Ec; [|repeat split; auto].
    destruct (rerender_frame (Client.state (view t)) colour
                (on_status status now t)) as (Hv & Hu & Hc & Hs & Ht).
    destruct (on_status_frame_tab status now t)
      as (_ & _ & _ & _ & _ & Hu' & Hc' & Hs').
    rewrite Hu, Hc, Hs, Ht, Hu', Hc', Hs'.
    split; [|reflexivity]. split; [exact Ec|]. split; [reflexivity|].
    split; [discriminate|].
    unfold on_status.
    destruct (String.eqb status "SUBSCRIBED").
    + right. split; [discriminate|reflexivity].
    + left. destruct (String.eqb status "CLOSED"); [reflexivity|].
      destruct (String.prefix "CHANNEL_ERROR" status); reflexivity.
  - destruct (List.existsb (Nat.eqb h) (intervals t)); repeat split; auto.
Qed.

Lemma step_channel_kept (e : Event) (t : Tab) :
  channelRef t <> None -> channelRef (step e t) <> None.
Proof.
  intros Hc. pose proof (step_subscription e t) as [H _].
  destruct e.
  - destruct H as (_ & -> & _). exact Hc.
  - cbn [step]. destruct (setup t); try exact Hc.
    destruct (rerender_frame (Client.state (view t)) colour
                (setSetup Admin.SetupReturned (setup_fetched r t)))
      as (_ & _ & -> & _).
    destruct r; cbn; try exact Hc; discriminate.
  - destruct H as (_ & -> & _). exact Hc.
  - destruct H as (-> & _). exact Hc.
  - destruct H as (_ & -> & _). exact Hc.
Qed.

Lemma run_channel_kept (es : list Event) (t : Tab) :
  channelRef t <> None -> channelRef (run es t) <> None.
Proof.
  revert t. induction es as [|e es IH]; intros t Hc; [exact Hc|].
  rewrite tab_run_cons. apply IH, step_channel_kept, Hc.
Qed.

(** Without a channel, once setup has returned, nothing reaches the view
    and nothing is tracked. *)
Lemma step_without_channel (e : Event) (t : Tab) :
  setup t = Admin.SetupReturned -> channelRef t = None ->
  view (step e t) = view t /\ tracked (step e t) = tracked t /\
  setup (step e t) = Admin.SetupReturned /\ channelRef (step e t) = None.
Proof.
  intros Hs Hc. pose proof (step_subscription e t) as [H _].
  destruct e.
  - cbn [step]. rewrite Hs. auto.
  - destruct H as (Ht & H). destruct H as (Hv & Hc' & Hs');
      [rewrite Hs; discriminate|].
    rewrite Hv, Ht, Hc', Hs'. auto.
  - destruct H as (Ht & Hc' & Hs' & Hv). rewrite Ht, Hc', Hs', (Hv Hc). auto.
  - destruct H as (Hc' & Hs' & Hv & _). destruct (Hv Hc) as [Hv' Ht].
    rewrite Hc', Hs', Hv', Ht. auto.
  - destruct H as (Hv & Hc' & Hs' & Ht). rewrite Hv, Hc', Hs', Ht. auto.
Qed.

(** X14. Of the two [Home] components of the file: in the first, a
    failed initial fetch shows [ERROR] and returns before the channel is
    created, so whatever happens afterwards the view stays as it is,
    [channelRef] stays null and [track] is never called; in the second,
    setup goes on whatever the fetch did: the channel is created, and a
    [SUBSCRIBED] status then registers the tab's presence. *)
Theorem failed_fetch_and_presence
    (userId background colour1 colour2 : string)
    (r : Admin.FetchResult) (es : list Event) :
  (forall d, r <> Admin.FetchData d) ->
  let t := run [Mounted colour1; Fetched r colour2]
             (initialTab userId background) in
  (Client.state (view t) = ERROR /\ channelRef t = None /\
   view (run es t) = view t /\
   tracked (run es t) = [] /\
   channelRef (run es t) = None) /\
  (forall (o : SecondHome.FetchOutcome) (t2 : SecondHome.Tab) (now' : string),
      SecondHome.channelRef (SecondHome.setup_fetched o t2)
        = Some RAFFLE_ROOM_CHANNEL /\
      SecondHome.tracked
        (SecondHome.on_status "SUBSCRIBED" now' (SecondHome.setup_fetched o t2))
        = {| user := SecondHome.userId t2; online_at := now' |}
          :: SecondHome.tracked t2 /\
      (o = SecondHome.Thrown ->
       SecondHome.state (SecondHome.setup_fetched o t2) = Some ERROR) /\
      (o = SecondHome.Resolved None ->
       SecondHome.state (SecondHome.setup_fetched o t2) = None)).
Proof.
  intros Hr t. split.
  - assert (Ht : Client.state (view t) = ERROR /\ channelRef t = None /\
                 setup t = Admin.SetupReturned /\ tracked t = []).
    { subst t. destruct r as [d | message |].
      - contradiction (Hr d). reflexivity.
      - repeat split.
      - repeat split. }
    destruct Ht as (Hs & Hc & Hp & Htr).
    split; [exact Hs|]. split; [exact Hc|].
    clearbody t. rewrite <- Htr. clear Hs Htr.
    revert t Hc Hp. induction es as [|e es IH]; intros t Hc Hp.
    + repeat split. exact Hc.
    + rewrite tab_run_cons.
      destruct (step_without_channel e t Hp Hc) as (Hv & Ht & Hp' & Hc').
      destruct (IH (step e t) Hc' Hp') as (H1 & H2 & H3).
      rewrite H1, H2, Hv, Ht. repeat split. exact H3.
  - intros o t2 now'. split; [|split; [|split]].
    + destruct o as [[data|]|]; reflexivity.
    + destruct o as [[data|]|]; reflexivity.
    + intros ->. reflexivity.
    + intros ->. reflexivity.
Qed.

Lemma failed_fetch_and_presence_witness :
  tracked
    (run [StatusChanged "SUBSCRIBED" Samples.now "hsl(0, 70%, 50%)";
          Changed (Samples.recordIn DRAWING None) "hsl(0, 70%, 50%)"]
       (run [Mounted "hsl(0, 70%, 50%)";
             Fetched Admin.FetchNoData "hsl(0, 70%, 50%)"]
          (initialTab MoreSamples.someUser "white")))
    = [].
Proof.
  apply (failed_fetch_and_presence MoreSamples.someUser "white"
           "hsl(0, 70%, 50%)" "hsl(0, 70%, 50%)" Admin.FetchNoData
           [StatusChanged "SUBSCRIBED" Samples.now "hsl(0, 70%, 50%)";
            Changed (Samples.recordIn DRAWING None) "hsl(0, 70%, 50%)"]).
  discriminate.
Defined.

(** What holds of the presence a tab has registered. *)
Lemma tracked_invariant (uid : string) (es : list Event) (t : Tab) :
  userId t = uid ->
  Forall (fun p => user p = uid) (tracked t) ->
  (tracked t <> [] -> channelRef t <> None) ->
  userId (run es t) = uid /\
  Forall (fun p => user p = uid) (tracked (run es t)) /\
  (tracked (run es t) <> [] -> channelRef (run es t) <> None).
Proof.
  revert t. induction es as [|e es IH]; intros t Hu Hf Hc.
  - repeat split; assumption.
  - rewrite tab_run_cons.
    pose proof (step_subscription e t) as [H Hu'].
    apply IH.
    + congruence.
    + destruct e.
      * destruct H as (_ & _ & ->). exact Hf.
      * destruct H as (-> & _). exact Hf.
      * destruct H as (-> & _). exact Hf.
      * destruct H as (_ & _ & _ & [-> | [_ ->]]); [exact Hf|].
        constructor; [exact Hu|exact Hf].
      * destruct H as (_ & _ & _ & ->). exact Hf.
    + intros Hne. destruct (tracked t) as [|p l] eqn:Et.
      * (* something was tracked by this step: there was a channel *)
        destruct e.
        -- destruct H as (_ & _ & Ht). rewrite Ht in Hne. contradiction.
        -- destruct H as (Ht & _). rewrite Ht in Hne. contradiction.
        -- destruct H as (Ht & _). rewrite Ht in Hne. contradiction.
        -- destruct H as (Hc' & _ & _ & [Ht | [Hch _]]).
           ++ rewrite Ht in Hne. contradiction.
           ++ rewrite Hc'. exact Hch.
        -- destruct H as (_ & _ & _ & Ht). rewrite Ht in Hne. contradiction.
      * apply step_channel_kept, Hc. discriminate.
Qed.

(** X15. Every presence payload a spectator tab registers carries the
    tab's own identifier, and a tab has registered presence only if it
    holds a channel. *)
Theorem spectator_tracks_only_itself
    (userId background : string) (es : list Event) :
  let t := run es (initialTab userId background) in
  Forall (fun p => user p = userId) (tracked t) /\
  (tracked t <> [] -> channelRef t <> None).
Proof.
  intros t.
  destruct (tracked_invariant userId es (initialTab userId background))
    as (_ & Hf & Hc).
  - reflexivity.
  - constructor.
  - intros H. contradiction H. reflexivity.
  - split; assumption.
Qed.

(** X16. On a tab that has its channel, a delivered change event decides
    the view whatever came before it, a channel error included: the view
    is the pair of the last record delivered. *)
Theorem spectator_shows_last_change
    (t : Tab) (es : list Event) (new : PublicData) (colour : string) :
  channelRef t <> None ->
  view (run (es ++ [Changed new colour]) t)
    = {| Client.state := Supabase.state new;
         Client.winner := Supabase.winner new |}.
Proof.
  intros Hc. unfold run. rewrite fold_left_app. cbn [fold_left].
  fold (run es t). pose proof (run_channel_kept es t Hc) as Hc'.
  cbn [step]. destruct (channelRef (run es t)); [|contradiction Hc'; reflexivity].
  destruct (rerender_frame (Client.state (view (run es t))) colour
              (on_postgres_changes new (run es t))) as (-> & _).
  reflexivity.
Qed.

Lemma spectator_shows_last_change_witness :
  view
    (run ([StatusChanged "CHANNEL_ERROR" Samples.now "hsl(0, 70%, 50%)"]
          ++ [Changed (Samples.recordIn DRAWN (Some "p42")) "hsl(0, 70%, 50%)"])
       (run [Mounted "hsl(0, 70%, 50%)";
             Fetched (Admin.FetchData (Samples.recordIn DRAWING None))
               "hsl(0, 70%, 50%)"]
          (initialTab MoreSamples.someUser "white")))
    = {| Client.state := DRAWN; Client.winner := Some "p42" |}.
Proof.
  apply (spectator_shows_last_change
           (run [Mounted "hsl(0, 70%, 50%)";
                 Fetched (Admin.FetchData (Samples.recordIn DRAWING None))
                   "hsl(0, 70%, 50%)"]
              (initialTab MoreSamples.someUser "white"))
           [StatusChanged "CHANNEL_ERROR" Samples.now "hsl(0, 70%, 50%)"]
           (Samples.recordIn DRAWN (Some "p42")) "hsl(0, 70%, 50%)").
  discriminate.
Defined.

End HomePageFacts.
